(** * ai-chat-service: the completion client and the request gateway

    A shallow embedding of [src/chatgpt.ts] (the ChatGPT client), of the
    GraphQL resolvers and of the Cloudflare worker entry point, followed by
    the properties of the specification that were checked against it.

    Conventions of the embedding.
    - A JavaScript string is a [string]: the bytes of its UTF-8 encoding.
    - A JavaScript number is a binary64 value of [spec_float], rounded by
      the library's [binary_round_aux]; the value drawn by [Math.random]
      is kept as the rational it denotes (see [ChatGPT.getMockResponse]).
    - A JavaScript value of unknown shape (a parsed JSON body, a GraphQL
      request) is a [JS.value]; property reads follow the language:
      reading a property of [undefined] or [null] throws a [TypeError].
    - Code that can throw, log, draw random numbers or call the network runs
      in the monad [M]: it reads the host (built-ins and the outside world),
      threads a [World] (the events so far and the draws consumed) and ends
      in [Return v] or [Throw e].  Events recorded before a throw are kept,
      as they are in JavaScript. *)

From Stdlib Require Import String Ascii List ZArith QArith Qround Bool Lia SpecFloat.
Import ListNotations.
Set Warnings "-register-all".
Close Scope Q_scope.
Open Scope string_scope.

(* ================================================================== *)
(** ** JavaScript strings                                              *)
(* ================================================================== *)

Module JSString.

(** The double quote, spliced into the literals that contain one. *)
Definition dq : string := String "034"%char EmptyString.

Definition bytes (l : list nat) : string :=
  fold_right (fun n s => String (ascii_of_nat n) s) EmptyString l.

Fixpoint reverse_onto (s acc : string) : string :=
  match s with
  | EmptyString => acc
  | String c r => reverse_onto r (String c acc)
  end.

Definition reverse (s : string) : string := reverse_onto s EmptyString.

Fixpoint drop (n : nat) (s : string) : string :=
  match n, s with
  | O, _ => s
  | S _, EmptyString => EmptyString
  | S k, String _ r => drop k r
  end.

(** [s.substring(n)] for a non-negative [n]. *)
Definition substring_from (n : nat) (s : string) : string := drop n s.

(** [s.includes(t)] *)
Fixpoint includes (t s : string) : bool :=
  prefix t s ||
  match s with
  | EmptyString => false
  | String _ r => includes t r
  end.

(** WhiteSpace and LineTerminator of ECMAScript, each as its UTF-8 bytes:
    TAB LF VT FF CR SP, U+00A0, U+1680, U+2000..U+200A, U+2028, U+2029,
    U+202F, U+205F, U+3000, U+FEFF. *)
Definition whiteSpace : list string :=
  map bytes
    ([ [9]; [10]; [11]; [12]; [13]; [32]; [194; 160]; [225; 154; 128] ]
     ++ map (fun k => [226; 128; 128 + k]) (seq 0 11)
     ++ [ [226; 128; 168]; [226; 128; 169]; [226; 128; 175];
          [226; 129; 159]; [227; 128; 128]; [239; 187; 191] ]).

(** The rest of [s] after one leading member of [ws], if it has one. *)
Fixpoint strip_one (ws : list string) (s : string) : option string :=
  match ws with
  | [] => None
  | w :: ws' => if prefix w s then Some (drop (String.length w) s)
                else strip_one ws' s
  end.

Fixpoint strip_fuel (fuel : nat) (ws : list string) (s : string) : string :=
  match fuel with
  | O => s
  | S f => match strip_one ws s with
           | Some r => strip_fuel f ws r
           | None => s
           end
  end.

Definition trimStart (s : string) : string :=
  strip_fuel (String.length s) whiteSpace s.

Definition trimEnd (s : string) : string :=
  reverse (strip_fuel (String.length s) (map reverse whiteSpace) (reverse s)).

(** [s.trim()] *)
Definition trim (s : string) : string := trimEnd (trimStart s).

(** [s.length]: UTF-16 code units, counted on the UTF-8 bytes (one per
    character, two for a character of four bytes). *)
Fixpoint utf16_length (s : string) : Z :=
  match s with
  | EmptyString => 0
  | String c r =>
      let n := Z.of_nat (nat_of_ascii c) in
      ((if (n <? 128) || (192 <=? n) then 1 else 0)
       + (if 240 <=? n then 1 else 0) + utf16_length r)%Z
  end.

(** The bytes of the first character of [s] (what [s[0]] holds when that
    character lies in the basic plane). *)
Fixpoint continuation (s : string) : string :=
  match s with
  | String c r =>
      let n := nat_of_ascii c in
      if (128 <=? n)%nat && (n <? 192)%nat then String c (continuation r)
      else EmptyString
  | EmptyString => EmptyString
  end.

Definition first_char (s : string) : option string :=
  match s with
  | EmptyString => None
  | String c r => Some (String c (continuation r))
  end.

(** Digits of a non-negative integer in a radix between 2 and 36. *)
Definition digit_char (d : Z) : ascii :=
  if (d <? 10)%Z then ascii_of_nat (48 + Z.to_nat d)
  else ascii_of_nat (87 + Z.to_nat d).

Fixpoint digits_fuel (fuel : nat) (radix n : Z) (acc : string) : string :=
  match fuel with
  | O => acc
  | S f =>
      let acc' := String (digit_char (n mod radix)) acc in
      if (n / radix =? 0)%Z then acc' else digits_fuel f radix (n / radix) acc'
  end.

(** [n.toString(radix)] for an integer [n]. *)
Definition Z_toString (radix n : Z) : string :=
  let body := digits_fuel (S (Z.to_nat (Z.log2 (Z.abs n)))) radix (Z.abs n) "" in
  if (n <? 0)%Z then "-" ++ body else body.

End JSString.

(* ================================================================== *)
(** ** JavaScript numbers read from strings                            *)
(* ================================================================== *)

Module JSNumber.
Import JSString.

(** binary64 *)
Definition prec : Z := 53.
Definition emax : Z := 1024.

Definition number : Type := spec_float.
Definition nan : number := S754_nan.
Definition zero : number := S754_zero false.
Definition neg_zero : number := S754_zero true.
Definition infinity : number := S754_infinity false.
Definition neg_infinity : number := S754_infinity true.

(** The value of a character as a digit (letters count from ten). *)
Definition digit_value (c : ascii) : option Z :=
  let n := Z.of_nat (nat_of_ascii c) in
  if (48 <=? n)%Z && (n <=? 57)%Z then Some (n - 48)%Z
  else if (97 <=? n)%Z && (n <=? 122)%Z then Some (n - 87)%Z
  else if (65 <=? n)%Z && (n <=? 90)%Z then Some (n - 55)%Z
  else None.

(** The longest prefix of digits of [radix], and what follows it. *)
Fixpoint take_digits (radix : Z) (s : string) : list Z * string :=
  match s with
  | EmptyString => ([], s)
  | String c r =>
      match digit_value c with
      | Some d =>
          if (d <? radix)%Z
          then let (ds, rest) := take_digits radix r in (d :: ds, rest)
          else ([], s)
      | None => ([], s)
      end
  end.

Definition value_of (radix : Z) (ds : list Z) : Z :=
  fold_left (fun acc d => acc * radix + d)%Z ds 0%Z.

(** The Number nearest to the integer [n] (ties to even); [neg] decides
    the sign of a zero. *)
Definition of_integer (neg : bool) (n : Z) : number :=
  if (n =? 0)%Z then (if neg then neg_zero else zero)
  else binary_normalize prec emax (if neg then - n else n)%Z 0 false.

(** The Number nearest to [m * 10^k] for [m >= 0] (ties to even).  For a
    negative [k] the quotient is taken with 64 bits to spare and the rest
    of the division is handed to the rounding as its location. *)
Definition of_decimal (neg : bool) (m k : Z) : number :=
  if (m =? 0)%Z then (if neg then neg_zero else zero)
  else if (0 <=? k)%Z then of_integer neg (m * 10 ^ k)
  else
    let d := (10 ^ (- k))%Z in
    let s := (Z.log2 d + 65)%Z in
    let q := (m * 2 ^ s / d)%Z in
    let r := (m * 2 ^ s mod d)%Z in
    let loc := if (r =? 0)%Z then loc_Exact else loc_Inexact (2 * r ?= d)%Z in
    binary_round_aux prec emax neg q (- s) loc.

Definition take_sign (s : string) : bool * string :=
  match s with
  | String "-"%char r => (true, r)
  | String "+"%char r => (false, r)
  | _ => (false, s)
  end.

(** [parseInt(s)] with no radix given. *)
Definition parseInt (input : string) : number :=
  let (neg, s) := take_sign (trimStart input) in
  let (radix, s) :=
    if prefix "0x" s || prefix "0X" s then (16%Z, drop 2 s) else (10%Z, s) in
  match fst (take_digits radix s) with
  | [] => nan
  | ds => of_integer neg (value_of radix ds)
  end.

(** The exponent part [e], [e+] or [e-] followed by digits, if [s] starts
    with one: its value and what follows it. *)
Definition take_exponent (s : string) : option (Z * string) :=
  match s with
  | String c r =>
      if (c =? "e")%char || (c =? "E")%char then
        let (neg, r') := take_sign r in
        match take_digits 10 r' with
        | ([], _) => None
        | (ds, rest) => Some ((if neg then - value_of 10 ds else value_of 10 ds)%Z, rest)
        end
      else None
  | EmptyString => None
  end.

(** The longest prefix of [s] that is a StrDecimalLiteral: its value and
    what follows it. *)
Definition scan_decimal (s : string) : option (number * string) :=
  let (neg, s1) := take_sign s in
  if prefix "Infinity" s1
  then Some (if neg then neg_infinity else infinity, drop 8 s1)
  else
    let (ip, s2) := take_digits 10 s1 in
    let '(dot, fp, s3) :=
      match s2 with
      | String "."%char r => let (fp, r') := take_digits 10 r in (true, fp, r')
      | _ => (false, [], s2)
      end in
    match ip, fp with
    | [], [] => None
    | _, _ =>
        let '(e, rest) :=
          match take_exponent s3 with
          | Some (e, rest) => (e, rest)
          | None => (0%Z, s3)
          end in
        Some (of_decimal neg (value_of 10 (ip ++ fp)) (e - Z.of_nat (length fp)), rest)
    end.

(** [parseFloat(s)] *)
Definition parseFloat (input : string) : number :=
  match scan_decimal (trimStart input) with
  | Some (x, _) => x
  | None => nan
  end.

(** A literal with a radix prefix: all of [s] must be digits of [radix]. *)
Definition of_radix_literal (radix : Z) (s : string) : number :=
  match take_digits radix s with
  | (d :: ds, EmptyString) => of_integer false (value_of radix (d :: ds))
  | _ => nan
  end.

(** StringToNumber: the Number a string converts to. *)
Definition StringToNumber (input : string) : number :=
  let s := trim input in
  if (s =? "")%string then zero
  else if prefix "0x" s || prefix "0X" s then of_radix_literal 16 (drop 2 s)
  else if prefix "0o" s || prefix "0O" s then of_radix_literal 8 (drop 2 s)
  else if prefix "0b" s || prefix "0B" s then of_radix_literal 2 (drop 2 s)
  else match scan_decimal s with
       | Some (x, EmptyString) => x
       | _ => nan
       end.

Definition is_nan (x : number) : bool :=
  match x with S754_nan => true | _ => false end.

Definition is_infinity (x : number) : bool :=
  match x with S754_infinity _ => true | _ => false end.

(** A Number is falsy when it is [+0], [-0] or [NaN]. *)
Definition truthy (x : number) : bool :=
  negb (SFeqb x zero || is_nan x).

(** [0 < x] *)
Definition positive_number (x : number) : bool := SFltb zero x.

End JSNumber.

(* ================================================================== *)
(** ** JavaScript values, errors and the host                          *)
(* ================================================================== *)

Module JS.
Import JSString JSNumber.

(** A value; [Obj] lists the own properties of an object, each key once. *)
Inductive value : Type :=
| Undefined
| Null
| Bool (b : bool)
| Num (x : number)
| Str (s : string)
| Arr (items : list value)
| Obj (props : list (string * value)).

(** A thrown [Error] object. *)
Record Error : Type := mkError { err_name : string; err_message : string }.

Inductive outcome (A : Type) : Type :=
| Return (a : A)
| Throw (e : Error).
Arguments Return {A} a.
Arguments Throw {A} e.

(** [`${e}`] for an [Error]: [Error.prototype.toString]. *)
Definition Error_toString (e : Error) : string :=
  if (err_name e =? "")%string then err_message e
  else if (err_message e =? "")%string then err_name e
  else err_name e ++ ": " ++ err_message e.

(** ToBoolean *)
Definition truthy (v : value) : bool :=
  match v with
  | Undefined | Null => false
  | Bool b => b
  | Num x => JSNumber.truthy x
  | Str s => negb (s =? "")%string
  | Arr _ | Obj _ => true
  end.

(** Truthiness of an optional string ([undefined] or [null] is [None]). *)
Definition truthy_opt (o : option string) : bool :=
  match o with
  | Some s => negb (s =? "")%string
  | None => false
  end.

(** [a || b] on strings, the left one optional. *)
Definition or_string (o : option string) (d : string) : string :=
  match o with
  | Some s => if negb (s =? "")%string then s else d
  | None => d
  end.

(** [a || undefined] on an optional string. *)
Definition or_undefined (o : option string) : value :=
  match o with
  | Some s => if negb (s =? "")%string then Str s else Undefined
  | None => Undefined
  end.

(** [a || b] on numbers, the left one optional. *)
Definition or_number (o : option number) (d : number) : number :=
  match o with
  | Some x => if JSNumber.truthy x then x else d
  | None => d
  end.

Fixpoint lookup (k : string) (props : list (string * value)) : option value :=
  match props with
  | [] => None
  | (k', v) :: rest => if (k =? k')%string then Some v else lookup k rest
  end.

Definition TypeError_read (k : string) : Error :=
  mkError "TypeError" ("Cannot read properties of undefined (reading '" ++ k ++ "')").

(** [v.k] for a property name that is not an index and that no prototype
    defines (the program reads [choices], [length], [message], [content],
    [query], [variables] and [operationName]). *)
Definition get (v : value) (k : string) : outcome value :=
  match v with
  | Undefined | Null => Throw (TypeError_read k)
  | Bool _ | Num _ => Return Undefined
  | Str s =>
      Return (if (k =? "length")%string then Num (of_integer false (utf16_length s))
              else Undefined)
  | Arr l =>
      Return (if (k =? "length")%string then Num (of_integer false (Z.of_nat (length l)))
              else Undefined)
  | Obj props =>
      Return (match lookup k props with Some x => x | None => Undefined end)
  end.

(** [v[0]] *)
Definition first (v : value) : outcome value :=
  match v with
  | Undefined | Null => Throw (TypeError_read "0")
  | Bool _ | Num _ => Return Undefined
  | Str s => Return (match first_char s with Some c => Str c | None => Undefined end)
  | Arr l => Return (match l with x :: _ => x | [] => Undefined end)
  | Obj props => Return (match lookup "0" props with Some x => x | None => Undefined end)
  end.

Section Conversions.
(** [Number.prototype.toString], a built-in of the host. *)
Variable Number_toString : number -> string.

(** ToString *)
Fixpoint ToString (v : value) : string :=
  match v with
  | Undefined => "undefined"
  | Null => "null"
  | Bool b => if b then "true" else "false"
  | Num x => Number_toString x
  | Str s => s
  | Arr l =>
      String.concat ","
        (map (fun e => match e with
                       | Undefined | Null => ""
                       | _ => ToString e
                       end) l)
  | Obj _ => "[object Object]"
  end.

(** ToNumber *)
Definition ToNumber (v : value) : number :=
  match v with
  | Undefined => nan
  | Null => zero
  | Bool b => if b then of_integer false 1 else zero
  | Num x => x
  | Str s => StringToNumber s
  | Arr _ | Obj _ => StringToNumber (ToString v)
  end.

(** [v > 0] *)
Definition gt_zero (v : value) : bool := positive_number (ToNumber v).

(** Two hexadecimal digits of a byte, for the escapes of [JSON.stringify]. *)
Definition hex2 (n : Z) : string :=
  String (digit_char (n / 16)) (String (digit_char (n mod 16)) "").

(** QuoteJSONString, without its quotes. *)
Fixpoint escape (s : string) : string :=
  match s with
  | EmptyString => ""
  | String c r =>
      let n := Z.of_nat (nat_of_ascii c) in
      (if (n =? 34)%Z then "\" ++ dq
       else if (n =? 92)%Z then "\\"
       else if (n =? 8)%Z then "\b"
       else if (n =? 9)%Z then "\t"
       else if (n =? 10)%Z then "\n"
       else if (n =? 12)%Z then "\f"
       else if (n =? 13)%Z then "\r"
       else if (n <? 32)%Z then "\u00" ++ hex2 n
       else String c "")
      ++ escape r
  end.

Definition quote (s : string) : string := dq ++ escape s ++ dq.

(** [JSON.stringify(v)] with no indentation; [None] is [undefined]. *)
Fixpoint JSON_stringify (v : value) : option string :=
  match v with
  | Undefined => None
  | Null => Some "null"
  | Bool b => Some (if b then "true" else "false")
  | Num x => Some (if is_nan x || is_infinity x then "null" else Number_toString x)
  | Str s => Some (quote s)
  | Arr l =>
      Some ("[" ++ String.concat ","
              (map (fun e => match JSON_stringify e with
                             | Some t => t
                             | None => "null"
                             end) l) ++ "]")
  | Obj props =>
      Some ("{" ++ String.concat ","
              (flat_map (fun kv => match JSON_stringify (snd kv) with
                                   | Some t => [quote (fst kv) ++ ":" ++ t]
                                   | None => []
                                   end) props) ++ "}")
  end.
End Conversions.

(** *** The host: built-ins the program calls and the world outside *)

Record HttpRequest : Type := mkHttpRequest {
  req_url : string;
  req_method : string;
  req_headers : list (string * string);
  req_body : option string
}.

(** What [fetch] resolves to: the status line and the body; reading the
    body can fail. *)
Record HttpResponse : Type := mkHttpResponse {
  res_status : Z;
  res_text : outcome string
}.

(** [response.ok] *)
Definition ok (r : HttpResponse) : bool :=
  (200 <=? res_status r)%Z && (res_status r <=? 299)%Z.

Inductive Event : Type :=
| Fetch (req : HttpRequest)
| ConsoleWarn (text : string)
| ConsoleError (text : string) (e : Error).

Record Host : Type := mkHost {
  JSON_parse : string -> outcome value;
  Number_toString : number -> string;
  fraction_toString : Z -> Q -> string;   (* [x.toString(radix)] of a draw *)
  Date_toISOString : Z -> string;
  upstream : HttpRequest -> outcome HttpResponse;  (* a rejected [fetch] throws *)
  Math_random : nat -> Q;                  (* the successive draws *)
  Date_now : nat -> Z                      (* the successive clock readings *)
}.

Record World : Type := mkWorld {
  events : list Event;
  draws : nat;
  ticks : nat
}.

Definition M (A : Type) : Type := Host -> World -> outcome A * World.

Definition ret {A} (a : A) : M A := fun _ w => (Return a, w).

Definition throw {A} (e : Error) : M A := fun _ w => (Throw e, w).

Definition bind {A B} (c : M A) (k : A -> M B) : M B :=
  fun h w =>
    match c h w with
    | (Return a, w') => k a h w'
    | (Throw e, w') => (Throw e, w')
    end.

(** [try { c } catch (error) { handler }] *)
Definition try_catch {A} (c : M A) (handler : Error -> M A) : M A :=
  fun h w =>
    match c h w with
    | (Return a, w') => (Return a, w')
    | (Throw e, w') => handler e h w'
    end.

(** A value or an exception computed without effects. *)
Definition lift {A} (o : outcome A) : M A := fun _ w => (o, w).

Definition host : M Host := fun h w => (Return h, w).

(** The world after one more event. *)
Definition record (ev : Event) (w : World) : World :=
  mkWorld (events w ++ [ev]) (draws w) (ticks w).

Definition emit (ev : Event) : M unit :=
  fun _ w => (Return tt, record ev w).

Definition console_warn (text : string) : M unit := emit (ConsoleWarn text).

Definition console_error (text : string) (e : Error) : M unit :=
  emit (ConsoleError text e).

(** [fetch(url, init)]: the call is recorded, the host answers. *)
Definition fetch (req : HttpRequest) : M HttpResponse :=
  fun h w => (upstream h req, record (Fetch req) w).

(** [Math.random()] *)
Definition random : M Q :=
  fun h w => (Return (Math_random h (draws w)), mkWorld (events w) (S (draws w)) (ticks w)).

(** [Date.now()] *)
Definition now : M Z :=
  fun h w => (Return (Date_now h (ticks w)), mkWorld (events w) (draws w) (S (ticks w))).

(** [response.text()] and [response.json()] *)
Definition text (r : HttpResponse) : M string := lift (res_text r).

Definition parse_body (h : Host) (body : outcome string) : outcome value :=
  match body with
  | Return t => JSON_parse h t
  | Throw e => Throw e
  end.

Definition json (body : outcome string) : M value :=
  fun h w => (parse_body h body, w).

(** The requests handed to [fetch] among the events. *)
Definition fetches (evs : list Event) : list HttpRequest :=
  flat_map (fun ev => match ev with Fetch r => [r] | _ => [] end) evs.

(** The draws of the host respect the contract of [Math.random]. *)
Definition random_in_unit (h : Host) : Prop :=
  forall n, (0 <= Math_random h n)%Q /\ (Math_random h n < 1)%Q.

End JS.

Declare Scope js_scope.
Delimit Scope js_scope with js.
Notation "x <- c ;; k" := (JS.bind c (fun x => k))
  (at level 61, c at next level, right associativity) : js_scope.
Notation "c ;;; k" := (JS.bind c (fun _ => k))
  (at level 61, right associativity) : js_scope.

(* ================================================================== *)
(** ** src/chatgpt.ts: the completion client                           *)
(* ================================================================== *)

Module ChatGPT.
Import JSString JSNumber JS.
Local Open Scope js_scope.

(** [interface ChatGPTConfig] *)
Record ChatGPTConfig : Type := mkConfig {
  config_apiKey : string;
  config_model : option string;
  config_maxTokens : option number;
  config_temperature : option number
}.

Inductive Role : Type := system | user | assistant.

(** [interface ChatMessage] *)
Record ChatMessage : Type := mkMessage { role : Role; content : string }.

(** [interface ChatCompletionRequest] *)
Record ChatCompletionRequest : Type := mkCompletionRequest {
  model : string;
  messages : list ChatMessage;
  max_tokens : option number;
  temperature_ : option number;
  stream : option bool
}.

(** The fields of [class ChatGPTService]. *)
Record ChatGPTService : Type := mkService {
  apiKey : string;
  baseUrl : string;
  defaultModel : string;
  maxTokens : number;
  temperature : number
}.

(** The second parameter of [sendMessage]. *)
Record Options : Type := mkOptions {
  conversationId : option string;
  opt_model : option string;
  systemPrompt : option string
}.

(** The environment bindings of the worker ([interface Env]). *)
Record Env : Type := mkEnv {
  OPENAI_API_KEY : option string;
  OPENAI_MODEL : option string;
  MAX_TOKENS : option string;
  TEMPERATURE : option string;
  ENVIRONMENT : option string;
  ALLOWED_ORIGINS : option string
}.

(** The doubles that the literals [1000] and [0.7] denote
    ([1000] and [0x1.6666666666666p-1]). *)
Definition thousand : number := S754_finite false 8796093022208000 (-43).
Definition seven_tenths : number := S754_finite false 6305039478318694 (-53).

(** [constructor(config)] *)
Definition constructor (config : ChatGPTConfig) : ChatGPTService :=
  {| apiKey := or_string (Some (config_apiKey config)) "";
     baseUrl := "https://api.openai.com/v1";
     defaultModel := or_string (config_model config) "gpt-3.5-turbo";
     maxTokens := or_number (config_maxTokens config) thousand;
     temperature := or_number (config_temperature config) seven_tenths |}.

(** [updateApiKey(apiKey)] *)
Definition updateApiKey (this : ChatGPTService) (newKey : string) : ChatGPTService :=
  {| apiKey := newKey;
     baseUrl := baseUrl this;
     defaultModel := defaultModel this;
     maxTokens := maxTokens this;
     temperature := temperature this |}.

(** [createChatGPTService(env)] *)
Definition createChatGPTService (env : Env) : ChatGPTService :=
  constructor
    {| config_apiKey := or_string (OPENAI_API_KEY env) "";
       config_model := Some (or_string (OPENAI_MODEL env) "gpt-3.5-turbo");
       config_maxTokens := Some (parseInt (or_string (MAX_TOKENS env) "1000"));
       config_temperature := Some (parseFloat (or_string (TEMPERATURE env) "0.7")) |}.

(** The four templates of [getMockResponse], filled with [message]. *)
Definition mockResponses (message : string) : list string :=
  [ "I understand you said: " ++ dq ++ message ++ dq
      ++ ". This is a mock response since no API key is configured.";
    "Thank you for your message: " ++ dq ++ message ++ dq
      ++ ". Please configure your ChatGPT API key for real responses.";
    "Mock AI Response: I received your message " ++ dq ++ message ++ dq
      ++ " but I'm running in demo mode.";
    "Hello! You asked: " ++ dq ++ message ++ dq
      ++ ". This is a placeholder response - please add your OpenAI API key." ].

(** [list[i]] for an integer [i]: [undefined] outside the list. *)
Definition element (l : list string) (i : Z) : value :=
  if (i <? 0)%Z then Undefined
  else match nth_error l (Z.to_nat i) with
       | Some s => Str s
       | None => Undefined
       end.

(** [getMockResponse(message)].  The draw [r] is the rational the double
    denotes; its product with the length is exact in binary64 here (the
    length is 4, a power of two), so its floor is the floor of [r * 4]. *)
Definition getMockResponse (message : string) : M value :=
  r <- random ;;
  ret (element (mockResponses message)
         (Qfloor (r * inject_Z (Z.of_nat (length (mockResponses message)))))).

Definition role_name (r : Role) : string :=
  match r with
  | system => "system"
  | user => "user"
  | assistant => "assistant"
  end.

Definition message_value (m : ChatMessage) : value :=
  Obj [("role", Str (role_name (role m))); ("content", Str (content m))].

Definition optional_prop {A} (k : string) (f : A -> value) (o : option A)
  : list (string * value) :=
  match o with
  | Some a => [(k, f a)]
  | None => []
  end.

(** The object that [JSON.stringify] receives for a request. *)
Definition request_value (r : ChatCompletionRequest) : value :=
  Obj ([("model", Str (model r));
        ("messages", Arr (map message_value (messages r)))]
       ++ optional_prop "max_tokens" Num (max_tokens r)
       ++ optional_prop "temperature" Num (temperature_ r)
       ++ optional_prop "stream" Bool (stream r))%list.

(** [options?.field] *)
Definition opt {A} (options : option Options) (field : Options -> option A) : option A :=
  match options with
  | Some o => field o
  | None => None
  end.

(** The turns of the request (lines 67 to 81 of [sendMessage]). *)
Definition buildMessages (message : string) (options : option Options)
  : list ChatMessage :=
  let messages : list ChatMessage := [] in
  let messages :=
    match opt options systemPrompt with
    | Some prompt =>
        if truthy (Str prompt)
        then (messages ++ [ {| role := system; content := prompt |} ])%list
        else messages
    | None => messages
    end in
  (messages ++ [ {| role := user; content := message |} ])%list.

(** The request body (lines 83 to 88 of [sendMessage]). *)
Definition buildRequestBody (this : ChatGPTService) (message : string)
    (options : option Options) : ChatCompletionRequest :=
  {| model := or_string (opt options opt_model) (defaultModel this);
     messages := buildMessages message options;
     max_tokens := Some (maxTokens this);
     temperature_ := Some (temperature this);
     stream := None |}.

(** The call to the upstream endpoint (lines 91 to 98). *)
Definition completionCall (h : Host) (this : ChatGPTService)
    (requestBody : ChatCompletionRequest) : HttpRequest :=
  {| req_url := baseUrl this ++ "/chat/completions";
     req_method := "POST";
     req_headers := [("Content-Type", "application/json");
                     ("Authorization", "Bearer " ++ apiKey this)];
     req_body := JSON_stringify (Number_toString h) (request_value requestBody) |}.

(** [!this.apiKey || this.apiKey.trim() === ''] *)
Definition noApiKey (this : ChatGPTService) : bool :=
  negb (truthy (Str (apiKey this))) || (trim (apiKey this) =? "")%string.

(** The [try] block of [sendMessage] (lines 91 to 111). *)
Definition tryCompletion (this : ChatGPTService)
    (requestBody : ChatCompletionRequest) : M value :=
  h <- host ;;
  response <- fetch (completionCall h this requestBody) ;;
  (if negb (ok response) then
     errorData <- text response ;;
     throw (mkError "Error"
              ("ChatGPT API error: " ++ Z_toString 10 (res_status response)
               ++ " - " ++ errorData))
   else ret tt) ;;;
  data <- json (res_text response) ;;
  choices <- lift (get data "choices") ;;
  nonempty <- (if truthy choices then
                 len <- lift (get choices "length") ;;
                 ret (gt_zero (Number_toString h) len)
               else ret false) ;;
  if nonempty then
    choice <- lift (first choices) ;;
    msg <- lift (get choice "message") ;;
    lift (get msg "content")
  else throw (mkError "Error" "No response from ChatGPT API").

(** [sendMessage(message, options)] *)
Definition sendMessage (this : ChatGPTService) (message : string)
    (options : option Options) : M value :=
  if noApiKey this then
    console_warn "ChatGPT API key not provided, returning mock response" ;;;
    getMockResponse message
  else
    let requestBody := buildRequestBody this message options in
    try_catch
      (tryCompletion this requestBody)
      (fun error =>
         console_error "ChatGPT API error:" error ;;;
         getMockResponse message).

(** [validateApiKey()] *)
Definition validateApiKey (this : ChatGPTService) : M bool :=
  if noApiKey this then ret false
  else
    try_catch
      (response <- fetch {| req_url := baseUrl this ++ "/models";
                            req_method := "GET";
                            req_headers := [("Authorization", "Bearer " ++ apiKey this)];
                            req_body := None |} ;;
       ret (ok response))
      (fun _ => ret false).

End ChatGPT.

(* ================================================================== *)
(** ** The runtime's requests and responses                            *)
(* ================================================================== *)

Module Runtime.
Import JS.

(** [new URL(request.url)]: the path and the decoded query parameters. *)
Record URL : Type := mkURL {
  pathname : string;
  searchParams : list (string * string)
}.

(** [url.searchParams.get(name)] *)
Fixpoint searchParams_get (name : string) (params : list (string * string))
  : option string :=
  match params with
  | [] => None
  | (k, v) :: rest => if (k =? name)%string then Some v else searchParams_get name rest
  end.

(** An incoming [Request]: [content_type] is what
    [request.headers.get('content-type')] returns and [body] what reading
    the body as text gives. *)
Record Request : Type := mkRequest {
  method : string;
  url : URL;
  content_type : option string;
  body : outcome string
}.

(** A [Response] built by [new Response(body, init)]. *)
Record Response : Type := mkResponse {
  status : Z;
  headers : list (string * string);
  response_body : option string
}.

(** [response.headers.get(name)] for a name spelled as it was set. *)
Fixpoint header (name : string) (hs : list (string * string)) : option string :=
  match hs with
  | [] => None
  | (k, v) :: rest => if (k =? name)%string then Some v else header name rest
  end.

(** One property written into an object literal: a key already there keeps
    its place and takes the new value. *)
Fixpoint set_prop (k v : string) (o : list (string * string)) : list (string * string) :=
  match o with
  | [] => [(k, v)]
  | (k', v') :: rest =>
      if (k' =? k)%string then (k, v) :: rest else (k', v') :: set_prop k v rest
  end.

(** [{ ...o, ...more }] *)
Definition spread (o more : list (string * string)) : list (string * string) :=
  fold_left (fun acc kv => set_prop (fst kv) (snd kv) acc) more o.

End Runtime.

(* ================================================================== *)
(** ** The GraphQL schema and its resolvers                            *)
(* ================================================================== *)

Module Schema.
Import JSString JS Runtime.
Local Open Scope js_scope.

Definition typeDefs : string :=
  "
  type Query {
    hello: String
    chat(message: String!): ChatResponse
  }

  type Mutation {
    sendMessage(input: MessageInput!): ChatResponse
  }

  type ChatResponse {
    id: String!
    message: String!
    timestamp: String!
    model: String!
  }

  input MessageInput {
    message: String!
    conversationId: String
    model: String
  }

  type Conversation {
    id: String!
    messages: [ChatMessage!]!
    createdAt: String!
    updatedAt: String!
  }

  type ChatMessage {
    id: String!
    role: String!
    content: String!
    timestamp: String!
  }
".

(** [input MessageInput], as the engine hands it to a resolver. *)
Record MessageInput : Type := mkInput {
  input_message : string;
  input_conversationId : option string;
  input_model : option string
}.

(** The object a resolver returns for [type ChatResponse]. *)
Record ChatResponse : Type := mkChatResponse {
  id : string;
  message : value;
  timestamp : string;
  model : string
}.

(** The [contextValue] the worker passes to the engine. *)
Record Context : Type := mkContext {
  chatService : ChatGPT.ChatGPTService;
  env : ChatGPT.Env;
  request : Request
}.

(** [generateId()] *)
Definition generateId : M string :=
  h <- host ;;
  r <- random ;;
  t <- now ;;
  ret (substring_from 2 (fraction_toString h 36 r) ++ Z_toString 36 t).

(** [new Date().toISOString()] *)
Definition isoNow : M string :=
  h <- host ;;
  t <- now ;;
  ret (Date_toISOString h t).

(** [Query.hello] *)
Definition hello : string := "Hello from AI Chat Service!".

(** [Query.chat] *)
Definition chat (message : string) (context : Context) : M ChatResponse :=
  id <- generateId ;;
  timestamp <- isoNow ;;
  ret {| id := id;
         message := Str ("Echo: " ++ message);
         timestamp := timestamp;
         model := "gpt-3.5-turbo" |}.

(** [Mutation.sendMessage] *)
Definition sendMessage (input : MessageInput) (context : Context) : M ChatResponse :=
  let chatService := chatService context in
  try_catch
    (response <- ChatGPT.sendMessage chatService (input_message input)
                   (Some {| ChatGPT.conversationId := input_conversationId input;
                            ChatGPT.opt_model :=
                              Some (or_string (input_model input) "gpt-3.5-turbo");
                            ChatGPT.systemPrompt := None |}) ;;
     id <- generateId ;;
     timestamp <- isoNow ;;
     ret {| id := id;
            message := response;
            timestamp := timestamp;
            model := or_string (input_model input) "gpt-3.5-turbo" |})
    (fun error => throw (mkError "Error" ("Chat service error: " ++ Error_toString error))).

Record Resolvers : Type := mkResolvers {
  Query_hello : string;
  Query_chat : string -> Context -> M ChatResponse;
  Mutation_sendMessage : MessageInput -> Context -> M ChatResponse
}.

Definition resolvers : Resolvers :=
  {| Query_hello := hello; Query_chat := chat; Mutation_sendMessage := sendMessage |}.

(** What [makeExecutableSchema] is given. *)
Record ExecutableSchema : Type := mkSchema {
  schema_typeDefs : string;
  schema_resolvers : Resolvers
}.

Definition schema : ExecutableSchema :=
  {| schema_typeDefs := typeDefs; schema_resolvers := resolvers |}.

End Schema.

(* ================================================================== *)
(** ** The worker: routes, preflight and the GraphQL endpoint          *)
(* ================================================================== *)

Module Worker.
Import JSString JS Runtime.
Local Open Scope js_scope.

(** The argument of [graphql(...)]. *)
Record GraphQLArgs : Type := mkArgs {
  args_schema : Schema.ExecutableSchema;
  source : value;
  variableValues : value;
  operationName : value;
  contextValue : Schema.Context
}.

(** The execution engine of the [graphql] package: it may run resolvers of
    the schema (with their effects), returns a result object or throws. *)
Definition Engine : Type := GraphQLArgs -> M value.

Definition corsHeaders : list (string * string) :=
  [("Access-Control-Allow-Origin", "*");
   ("Access-Control-Allow-Methods", "GET, POST, OPTIONS");
   ("Access-Control-Allow-Headers", "Content-Type, Authorization")].

(** [handleCORS(request)] *)
Definition handleCORS (request : Request) : option Response :=
  if (method request =? "OPTIONS")%string
  then Some {| status := 200; headers := corsHeaders; response_body := None |}
  else None.

(** [contentType?.includes(t)] *)
Definition includes_opt (contentType : option string) (t : string) : bool :=
  match contentType with
  | Some c => includes t c
  | None => false
  end.

(** [parseGraphQLRequest(request)]; [Null] is [null]. *)
Definition parseGraphQLRequest (request : Request) : M value :=
  let contentType := content_type request in
  if (method request =? "POST")%string then
    if includes_opt contentType "application/json" then
      try_catch (json (body request)) (fun _ => ret Null)
    else if includes_opt contentType "application/graphql" then
      query <- lift (body request) ;;
      ret (Obj [("query", Str query)])
    else ret Null
  else if (method request =? "GET")%string then
    let query := searchParams_get "query" (searchParams (url request)) in
    let variables := searchParams_get "variables" (searchParams (url request)) in
    let operationName := searchParams_get "operationName" (searchParams (url request)) in
    match query with
    | Some q =>
        if truthy (Str q) then
          vars <- match variables with
                  | Some v => if truthy (Str v) then json (Return v) else ret Undefined
                  | None => ret Undefined
                  end ;;
          ret (Obj [("query", Str q);
                    ("variables", vars);
                    ("operationName", or_undefined operationName)])
        else ret Null
    | None => ret Null
    end
  else ret Null.

Definition playgroundHTML : string :=
  "
			<!DOCTYPE html>
			<html>
			<head>
				<title>AI Chat Service - GraphQL Playground</title>
				<style>
					body { font-family: Arial, sans-serif; margin: 40px; }
					.container { max-width: 800px; margin: 0 auto; }
					h1 { color: #333; }
					.endpoint { background: #f5f5f5; padding: 10px; border-radius: 4px; margin: 10px 0; }
					code { background: #e8e8e8; padding: 2px 4px; border-radius: 2px; }
					.example { background: #f9f9f9; padding: 15px; border-left: 4px solid #007acc; margin: 15px 0; }
				</style>
			</head>
			<body>
				<div class=" ++ dq ++ "container" ++ dq ++ ">
					<h1>ðŸ¤– AI Chat Service</h1>
					<p>Welcome to the AI Chat Service GraphQL API!</p>
					
					<h2>Endpoints</h2>
					<div class=" ++ dq ++ "endpoint" ++ dq ++ ">
						<strong>GraphQL:</strong> <code>/graphql</code>
					</div>
					<div class=" ++ dq ++ "endpoint" ++ dq ++ ">
						<strong>Health Check:</strong> <code>/health</code>
					</div>
					
					<h2>Example Queries</h2>
					<div class=" ++ dq ++ "example" ++ dq ++ ">
						<h3>Hello Query</h3>
						<pre>query {
  hello
}</pre>
					</div>
					
					<div class=" ++ dq ++ "example" ++ dq ++ ">
						<h3>Chat Query</h3>
						<pre>query {
  chat(message: " ++ dq ++ "Hello, how are you?" ++ dq ++ ") {
    id
    message
    timestamp
    model
  }
}</pre>
					</div>
					
					<div class=" ++ dq ++ "example" ++ dq ++ ">
						<h3>Send Message Mutation</h3>
						<pre>mutation {
  sendMessage(input: {
    message: " ++ dq ++ "What is the weather like?" ++ dq ++ "
    model: " ++ dq ++ "gpt-3.5-turbo" ++ dq ++ "
  }) {
    id
    message
    timestamp
    model
  }
}</pre>
					</div>
					
					<p><strong>Note:</strong> This service is configured to use mock responses when no OpenAI API key is provided.</p>
				</div>
			</body>
			</html>
			".

(** [JSON.stringify(v)] with the host's number printing. *)
Definition stringify (v : value) : M (option string) :=
  h <- host ;;
  ret (JSON_stringify (Number_toString h) v).

Section Handler.
Variable graphql : Engine.

(** The [fetch] handler of the worker (its third parameter, the execution
    context, is never used and is left out). *)
Definition fetch (request : Request) (env : ChatGPT.Env) : M Response :=
  match handleCORS request with
  | Some corsResponse => ret corsResponse
  | None =>
      let url := url request in
      if (pathname url =? "/health")%string then
        timestamp <- Schema.isoNow ;;
        text <- stringify (Obj [("status", Str "healthy");
                                ("timestamp", Str timestamp);
                                ("version", Str "1.0.0")]) ;;
        ret {| status := 200;
               headers := spread [("Content-Type", "application/json")] corsHeaders;
               response_body := text |}
      else if (pathname url =? "/graphql")%string then
        graphqlRequest <- parseGraphQLRequest request ;;
        if negb (truthy graphqlRequest) then
          text <- stringify (Obj [("error", Str "Invalid GraphQL request")]) ;;
          ret {| status := 400;
                 headers := spread [("Content-Type", "application/json")] corsHeaders;
                 response_body := text |}
        else
          try_catch
            (let chatService := ChatGPT.createChatGPTService env in
             query <- lift (get graphqlRequest "query") ;;
             variables <- lift (get graphqlRequest "variables") ;;
             operation <- lift (get graphqlRequest "operationName") ;;
             result <- graphql {| args_schema := Schema.schema;
                                  source := query;
                                  variableValues := variables;
                                  operationName := operation;
                                  contextValue :=
                                    {| Schema.chatService := chatService;
                                       Schema.env := env;
                                       Schema.request := request |} |} ;;
             text <- stringify result ;;
             ret {| status := 200;
                    headers := spread [("Content-Type", "application/json")] corsHeaders;
                    response_body := text |})
            (fun error =>
               console_error "GraphQL execution error:" error ;;;
               (* every thrown value of the model is an instance of Error *)
               text <- stringify (Obj [("error", Str "Internal server error");
                                       ("message", Str (err_message error))]) ;;
               ret {| status := 500;
                      headers := spread [("Content-Type", "application/json")] corsHeaders;
                      response_body := text |})
      else if (pathname url =? "/playground")%string || (pathname url =? "/")%string then
        ret {| status := 200;
               headers := spread [("Content-Type", "text/html")] corsHeaders;
               response_body := Some playgroundHTML |}
      else
        text <- stringify (Obj [("error", Str "Not Found");
                                ("message", Str "Available endpoints: /, /graphql, /health")]) ;;
        ret {| status := 404;
               headers := spread [("Content-Type", "application/json")] corsHeaders;
               response_body := text |}
  end.

End Handler.

End Worker.

(* ================================================================== *)
(** ** Vocabulary of the properties                                    *)
(* ================================================================== *)

Module Spec.
Import JSString JSNumber JS ChatGPT.

(** The request [sendMessage] hands to [fetch]. *)
Definition upstreamRequest (h : Host) (this : ChatGPTService) (message : string)
    (options : option Options) : HttpRequest :=
  completionCall h this (buildRequestBody this message options).

(** The ways the upstream call can fail: the transport rejects, the status
    is not a success, the body cannot be read or parsed, or the parsed body
    holds an empty list of choices. *)
Inductive upstream_failure (h : Host) (req : HttpRequest) : Prop :=
| transport_error (e : Error) :
    upstream h req = Throw e -> upstream_failure h req
| bad_status (r : HttpResponse) :
    upstream h req = Return r -> ok r = false -> upstream_failure h req
| malformed_body (r : HttpResponse) (e : Error) :
    upstream h req = Return r -> ok r = true ->
    parse_body h (res_text r) = Throw e -> upstream_failure h req
| zero_choices (r : HttpResponse) (data : value) :
    upstream h req = Return r -> ok r = true ->
    parse_body h (res_text r) = Return data ->
    get data "choices" = Return (Arr []) -> upstream_failure h req.

(** [t] occurs in [s]. *)
Definition contains (s t : string) : Prop :=
  exists before after, s = before ++ t ++ after.

(** The three cross-origin headers are set on a response. *)
Definition has_cors_headers (r : Runtime.Response) : Prop :=
  Runtime.header "Access-Control-Allow-Origin" (Runtime.headers r) = Some "*"
  /\ Runtime.header "Access-Control-Allow-Methods" (Runtime.headers r)
     = Some "GET, POST, OPTIONS"
  /\ Runtime.header "Access-Control-Allow-Headers" (Runtime.headers r)
     = Some "Content-Type, Authorization".

(** The request of [sendMessage] read word for word from the claim: a
    system turn whenever [options.systemPrompt] is given, the model of the
    options whenever it is given. *)
Definition request_as_claimed (this : ChatGPTService) (message : string)
    (options : option Options) : ChatCompletionRequest :=
  {| model := match opt options opt_model with
              | Some m => m
              | None => defaultModel this
              end;
     messages := match opt options systemPrompt with
                 | Some prompt => [ {| role := system; content := prompt |};
                                    {| role := user; content := message |} ]
                 | None => [ {| role := user; content := message |} ]
                 end;
     max_tokens := Some (maxTokens this);
     temperature_ := Some (temperature this);
     stream := None |}.

(** The model of the mutation read word for word from the claim:
    [input.model] whenever it is given. *)
Definition model_as_claimed (input : Schema.MessageInput) : string :=
  match Schema.input_model input with
  | Some m => m
  | None => "gpt-3.5-turbo"
  end.

(** [s] if it is given and not empty, [d] otherwise. *)
Definition given_or (o : option string) (d : string) : string :=
  match o with
  | Some EmptyString => d
  | Some s => s
  | None => d
  end.

End Spec.

(* ================================================================== *)
(** ** A concrete host, for the examples                               *)
(* ================================================================== *)

Module Examples.
Import JSString JSNumber JS ChatGPT.

Definition print (x : number) : string :=
  if SFeqb x thousand then "1000"
  else if SFeqb x seven_tenths then "0.7"
  else "0".

(** A completion with one choice, and its JSON text. *)
Definition completion : value :=
  Obj [("id", Str "chatcmpl-1");
       ("choices",
        Arr [Obj [("index", Num zero);
                  ("message", Obj [("role", Str "assistant");
                                   ("content", Str "Hello there!")]);
                  ("finish_reason", Str "stop")]])].

Definition completion_text : string :=
  match JSON_stringify print completion with
  | Some t => t
  | None => ""
  end.

(** A parser that knows the texts of the examples. *)
Definition parse (s : string) : outcome value :=
  if (s =? completion_text)%string then Return completion
  else if (s =? "{}")%string then Return (Obj [])
  else Throw (mkError "SyntaxError" "Unexpected token").

(** A host whose upstream answers every call with [answer]. *)
Definition hostWith (answer : outcome HttpResponse) : Host :=
  {| JSON_parse := parse;
     Number_toString := print;
     fraction_toString := fun _ _ => "0.4fzyo82mvyr";
     Date_toISOString := fun _ => "2024-01-01T00:00:00.000Z";
     upstream := fun _ => answer;
     Math_random := fun _ => (1 # 2)%Q;
     Date_now := fun _ => 1704067200000%Z |}.

Definition offline : Host :=
  hostWith (Throw (mkError "TypeError" "fetch failed")).

Definition online : Host :=
  hostWith (Return {| res_status := 200; res_text := Return completion_text |}).

Definition start : World := {| events := []; draws := 0; ticks := 0 |}.

Definition noEnv : Env :=
  {| OPENAI_API_KEY := None; OPENAI_MODEL := None; MAX_TOKENS := None;
     TEMPERATURE := None; ENVIRONMENT := None; ALLOWED_ORIGINS := None |}.

Definition keyEnv : Env :=
  {| OPENAI_API_KEY := Some "sk-test"; OPENAI_MODEL := Some "gpt-4"; MAX_TOKENS := None;
     TEMPERATURE := None; ENVIRONMENT := None; ALLOWED_ORIGINS := None |}.

(** An engine that answers every operation with an empty data object. *)
Definition idleEngine : Worker.Engine :=
  fun _ => ret (Obj [("data", Obj [])]).

Definition service : ChatGPTService := createChatGPTService keyEnv.

(** Options that give an empty system prompt, or an empty model. *)
Definition emptyPrompt : Options :=
  {| conversationId := None; opt_model := None; systemPrompt := Some "" |}.

Definition emptyModel : Options :=
  {| conversationId := None; opt_model := Some ""; systemPrompt := None |}.

(** A mutation input whose model is the empty string. *)
Definition emptyModelInput : Schema.MessageInput :=
  {| Schema.input_message := "Hello";
     Schema.input_conversationId := None;
     Schema.input_model := Some "" |}.

Definition healthRequest : Runtime.Request :=
  {| Runtime.method := "GET";
     Runtime.url := {| Runtime.pathname := "/health"; Runtime.searchParams := [] |};
     Runtime.content_type := None;
     Runtime.body := Return "" |}.

Definition preflightRequest : Runtime.Request :=
  {| Runtime.method := "OPTIONS";
     Runtime.url := {| Runtime.pathname := "/anything"; Runtime.searchParams := [] |};
     Runtime.content_type := None;
     Runtime.body := Return "" |}.

(** [POST /graphql] with the JSON body [{}]: no query field. *)
Definition postWithoutQuery : Runtime.Request :=
  {| Runtime.method := "POST";
     Runtime.url := {| Runtime.pathname := "/graphql"; Runtime.searchParams := [] |};
     Runtime.content_type := Some "application/json";
     Runtime.body := Return "{}" |}.

(** [GET /graphql?query={hello}&variables={oops] *)
Definition getWithBadVariables : Runtime.Request :=
  {| Runtime.method := "GET";
     Runtime.url := {| Runtime.pathname := "/graphql";
                       Runtime.searchParams := [("query", "{hello}");
                                                ("variables", "{oops")] |};
     Runtime.content_type := None;
     Runtime.body := Return "" |}.

Definition mutationContext : Schema.Context :=
  {| Schema.chatService := service;
     Schema.env := keyEnv;
     Schema.request := postWithoutQuery |}.

End Examples.

(* ================================================================== *)
(** ** Vocabulary of the gateway and of the credential test            *)
(* ================================================================== *)

Module GatewaySpec.
Import JSString JSNumber JS ChatGPT Runtime Worker.

(** The headers of every JSON response: [Content-Type] and the spread
    [corsHeaders]. *)
Definition jsonHeaders : list (string * string) :=
  [("Content-Type", "application/json");
   ("Access-Control-Allow-Origin", "*");
   ("Access-Control-Allow-Methods", "GET, POST, OPTIONS");
   ("Access-Control-Allow-Headers", "Content-Type, Authorization")].

(** The response to a request that [parseGraphQLRequest] turns down. *)
Definition invalidRequest : Response :=
  {| status := 400;
     headers := jsonHeaders;
     response_body :=
       Some ("{" ++ quote "error" ++ ":" ++ quote "Invalid GraphQL request" ++ "}") |}.

(** The requests to [/graphql] that carry no usable GraphQL request: a
    method other than GET and POST; a GET with no query or an empty one; a
    POST whose content type names neither JSON nor GraphQL; a POST of JSON
    whose body cannot be read or parsed, or parses to a falsy value. *)
Inductive malformed (h : Host) (request : Request) : Prop :=
| other_method :
    method request <> "POST" -> method request <> "GET" -> malformed h request
| get_without_query :
    method request = "GET" ->
    truthy_opt (searchParams_get "query" (searchParams (url request))) = false ->
    malformed h request
| post_other_type :
    method request = "POST" ->
    includes_opt (content_type request) "application/json" = false ->
    includes_opt (content_type request) "application/graphql" = false ->
    malformed h request
| post_unparseable (e : Error) :
    method request = "POST" ->
    includes_opt (content_type request) "application/json" = true ->
    parse_body h (body request) = Throw e ->
    malformed h request
| post_falsy (v : value) :
    method request = "POST" ->
    includes_opt (content_type request) "application/json" = true ->
    parse_body h (body request) = Return v ->
    truthy v = false ->
    malformed h request.

(** [v.k] for a value that is neither [undefined] nor [null]. *)
Definition field (v : value) (k : string) : value :=
  match get v k with
  | Return x => x
  | Throw _ => Undefined
  end.

(** What the handler passes to [graphql(...)] for the decoded request [g]. *)
Definition engineArgs (request : Request) (env : Env) (g : value) : GraphQLArgs :=
  {| args_schema := Schema.schema;
     source := field g "query";
     variableValues := field g "variables";
     operationName := field g "operationName";
     contextValue := {| Schema.chatService := createChatGPTService env;
                        Schema.env := env;
                        Schema.request := request |} |}.

(** TAB, LF, VT, FF, CR and SPACE. *)
Definition ascii_blank (c : ascii) : bool :=
  let n := nat_of_ascii c in
  ((9 <=? n)%nat && (n <=? 13)%nat) || (n =? 32)%nat.

(** A byte that can be part of a white space character: an ASCII blank or
    a byte of a character outside ASCII. *)
Definition blank_byte (c : ascii) : bool :=
  ascii_blank c || (128 <=? nat_of_ascii c)%nat.

Definition bytes_of (s : string) : list ascii := list_ascii_of_string s.

(** [s] starts with a decimal digit. *)
Definition decimal_start (s : string) : Prop :=
  exists d r, (0 <= d < 10)%Z /\ s = String (digit_char d) r.

End GatewaySpec.

(* ================================================================== *)
(** ** More examples                                                   *)
(* ================================================================== *)

Module MoreExamples.
Import JSString JSNumber JS ChatGPT Examples.




(** A host whose upstream answers 200 with the body [{}]. *)
Definition emptyObjectHost : Host :=
  hostWith (Return {| res_status := 200; res_text := Return "{}" |}).

(** A host whose upstream answers 503 with a text body. *)
Definition unavailableHost : Host :=
  hostWith (Return {| res_status := 503; res_text := Return "overloaded" |}).

Definition request (method path : string) (params : list (string * string))
    (contentType : option string) (text : string) : Runtime.Request :=
  {| Runtime.method := method;
     Runtime.url := {| Runtime.pathname := path; Runtime.searchParams := params |};
     Runtime.content_type := contentType;
     Runtime.body := Return text |}.

Definition unknownRequest : Runtime.Request := request "GET" "/nowhere" [] None "".
Definition rootRequest : Runtime.Request := request "GET" "/" [] None "".
Definition getWithoutQuery : Runtime.Request := request "GET" "/graphql" [] None "".
Definition getHello : Runtime.Request :=
  request "GET" "/graphql" [("query", "{hello}")] None "".
Definition getWithVariables : Runtime.Request :=
  request "GET" "/graphql" [("query", "{hello}"); ("variables", "{}")] None "".
Definition postGraphqlText : Runtime.Request :=
  request "POST" "/graphql" [] (Some "application/graphql") "{ hello }".

(** An engine that always throws. *)
Definition failingEngine : Worker.Engine :=
  fun _ => throw (mkError "Error" "schema is broken").

Definition helloInput : Schema.MessageInput :=
  {| Schema.input_message := "Hello";
     Schema.input_conversationId := None;
     Schema.input_model := None |}.

End MoreExamples.

(* ================================================================== *)
(** * Properties                                                       *)
(* ================================================================== *)

Import JSString JSNumber JS ChatGPT Spec.

(** ** Numbers: the length of a non-empty array is positive *)

Section Rounding.
Local Open Scope Z_scope.

Lemma digits2_pos_lower (p : positive) :
  2 ^ (Zpos (digits2_pos p) - 1) <= Zpos p.
Proof.
  induction p as [p IH | p IH |]; cbn [digits2_pos].
  - rewrite Pos2Z.inj_succ.
    replace (Z.succ (Zpos (digits2_pos p)) - 1)
      with (Z.succ (Zpos (digits2_pos p) - 1)) by lia.
    rewrite Z.pow_succ_r by lia. lia.
  - rewrite Pos2Z.inj_succ.
    replace (Z.succ (Zpos (digits2_pos p)) - 1)
      with (Z.succ (Zpos (digits2_pos p) - 1)) by lia.
    rewrite Z.pow_succ_r by lia. lia.
  - reflexivity.
Qed.

Lemma shr_1_m (r : shr_record) :
  0 <= shr_m r -> shr_m (shr_1 r) = shr_m r / 2.
Proof.
  destruct r as [m rb sb]; cbn [shr_m]; intros Hm.
  destruct m as [| [p | p |] | p]; cbn [shr_1 shr_m]; try reflexivity; try lia.
  - apply Z.div_unique with (r := 1); lia.
  - apply Z.div_unique with (r := 0); lia.
Qed.

Lemma iter_shr_1_m (n : positive) :
  forall r, 0 <= shr_m r ->
            shr_m (iter_pos shr_1 n r) = shr_m r / 2 ^ Zpos n.
Proof.
  induction n as [n IH | n IH |]; intros r Hr; cbn [iter_pos].
  - assert (H1 : 0 <= shr_m (shr_1 r))
      by (rewrite shr_1_m by assumption; apply Z.div_pos; lia).
    assert (H2 : 0 <= shr_m (iter_pos shr_1 n (shr_1 r)))
      by (rewrite IH by assumption; apply Z.div_pos; lia).
    rewrite IH, IH, shr_1_m by assumption.
    rewrite !Z.div_div by lia.
    f_equal.
    replace (Zpos n~1) with (1 + Zpos n + Zpos n) by lia.
    rewrite !Z.pow_add_r by lia. rewrite Z.pow_1_r. ring.
  - assert (H2 : 0 <= shr_m (iter_pos shr_1 n r))
      by (rewrite IH by assumption; apply Z.div_pos; lia).
    rewrite IH, IH by assumption.
    rewrite !Z.div_div by lia.
    f_equal.
    replace (Zpos n~0) with (Zpos n + Zpos n) by lia.
    rewrite !Z.pow_add_r by lia. ring.
  - rewrite shr_1_m by assumption. reflexivity.
Qed.

Lemma shr_record_of_loc_m (m : Z) (l : location) :
  shr_m (shr_record_of_loc m l) = m.
Proof. destruct l as [| []]; reflexivity. Qed.

(** Above the subnormal range a positive mantissa stays positive when it
    is cut down to the precision. *)
Lemma shr_fexp_positive (m e : Z) (l : location) :
  0 < m -> -1022 <= e ->
  0 < shr_m (fst (shr_fexp prec emax m e l))
  /\ e <= snd (shr_fexp prec emax m e l).
Proof.
  intros Hm He. destruct m as [| p | p]; try lia.
  unfold shr_fexp, shr, fexp, emin, prec, emax, Zdigits2.
  pose proof (digits2_pos_lower p) as Hd.
  set (D := Zpos (digits2_pos p)) in *.
  assert (HD : 1 <= D) by (unfold D; lia).
  rewrite Z.max_l by lia.
  replace (D + e - 53 - e) with (D - 53) by lia.
  destruct (D - 53) as [| k | k] eqn:Hk; cbn [fst snd].
  - rewrite shr_record_of_loc_m. lia.
  - rewrite iter_shr_1_m by (rewrite shr_record_of_loc_m; lia).
    rewrite shr_record_of_loc_m. split; [| lia].
    apply Z.div_str_pos. split; [lia |].
    apply Z.le_trans with (2 ^ (D - 1)); [| exact Hd].
    apply Z.pow_le_mono_r; lia.
  - rewrite shr_record_of_loc_m. lia.
Qed.

Lemma round_nearest_even_ge (m : Z) (l : location) :
  m <= round_nearest_even m l.
Proof. destruct l as [| []]; cbn; try lia. destruct (Z.even m); lia. Qed.

Lemma binary_round_aux_positive (m e : Z) (l : location) :
  0 < m -> -1022 <= e ->
  positive_number (binary_round_aux prec emax false m e l) = true.
Proof.
  intros Hm He. unfold binary_round_aux.
  pose proof (shr_fexp_positive m e l Hm He) as [H1 H2].
  destruct (shr_fexp prec emax m e l) as [mrs' e']; cbn [fst snd] in *.
  pose proof (round_nearest_even_ge (shr_m mrs') (loc_of_shr_record mrs')) as Hr.
  set (m2 := round_nearest_even (shr_m mrs') (loc_of_shr_record mrs')) in *.
  assert (Hm2 : 0 < m2) by lia.
  assert (He' : -1022 <= e') by lia.
  pose proof (shr_fexp_positive m2 e' loc_Exact Hm2 He') as [H3 H4].
  destruct (shr_fexp prec emax m2 e' loc_Exact) as [mrs'' e'']; cbn [fst snd] in *.
  destruct (shr_m mrs'') as [| q | q]; try lia.
  destruct (e'' <=? emax - prec); reflexivity.
Qed.

(** The Number of a positive integer is positive, whatever its size. *)
Lemma of_integer_positive (n : Z) :
  0 < n -> positive_number (of_integer false n) = true.
Proof.
  intros Hn. unfold of_integer.
  destruct (Z.eqb_spec n 0) as [-> | _]; [lia |].
  destruct n as [| p | p]; try lia.
  unfold binary_normalize, binary_round, shl_align.
  set (e' := fexp prec emax (Zpos (digits2_pos p) + 0)).
  assert (He : -52 <= e') by (unfold e', fexp, emin, prec, emax; lia).
  destruct (e' - 0) eqn:Hd; apply binary_round_aux_positive; lia.
Qed.

End Rounding.

(** The literals of the constructor are the doubles their texts denote. *)
Lemma literals_as_parsed :
  parseInt "1000" = thousand /\ parseFloat "0.7" = seven_tenths.
Proof. split; reflexivity. Qed.

(** ** The placeholder replies *)

Lemma floor_of_draw (r : Q) :
  (0 <= r)%Q -> (r < 1)%Q -> (0 <= Qfloor (r * inject_Z 4) <= 3)%Z.
Proof.
  destruct r as [a b]. unfold Qle, Qlt, Qfloor, Qmult, inject_Z. cbn [Qnum Qden].
  intros H0 H1.
  assert (Hb : (Zpos (b * 1) = Zpos b)%Z) by lia. rewrite Hb.
  split.
  - apply Z.div_pos; lia.
  - assert ((a * 4 / Zpos b < 4)%Z); [| lia].
    apply Z.div_lt_upper_bound; lia.
Qed.

Lemma mock_in_range (message : string) (r : Q) :
  (0 <= r)%Q -> (r < 1)%Q ->
  exists t,
    element (mockResponses message)
      (Qfloor (r * inject_Z (Z.of_nat (length (mockResponses message))))) = Str t
    /\ In t (mockResponses message).
Proof.
  intros H0 H1.
  change (Z.of_nat (length (mockResponses message))) with 4%Z.
  pose proof (floor_of_draw r H0 H1) as Hi.
  set (i := Qfloor (r * inject_Z 4)) in *.
  assert (Hc : i = 0%Z \/ i = 1%Z \/ i = 2%Z \/ i = 3%Z) by lia.
  destruct Hc as [-> | [-> | [-> | ->]]]; eexists; split;
    try reflexivity; cbn; auto.
Qed.

Lemma getMockResponse_run (message : string) (h : Host) (w : World) :
  getMockResponse message h w =
    (Return (element (mockResponses message)
               (Qfloor (Math_random h (draws w)
                        * inject_Z (Z.of_nat (length (mockResponses message)))))),
     mkWorld (events w) (S (draws w)) (ticks w)).
Proof. reflexivity. Qed.

Lemma getMockResponse_placeholder (message : string) (h : Host) (w : World) :
  random_in_unit h ->
  exists t,
    getMockResponse message h w
    = (Return (Str t), mkWorld (events w) (S (draws w)) (ticks w))
    /\ In t (mockResponses message).
Proof.
  intros Hr. destruct (Hr (draws w)) as [H0 H1].
  destruct (mock_in_range message _ H0 H1) as [t [Ht Hin]].
  exists t. split; [| exact Hin].
  rewrite getMockResponse_run, Ht. reflexivity.
Qed.

Lemma mockResponses_contain (message t : string) :
  In t (mockResponses message) -> contains t message.
Proof.
  intros [<- | [<- | [<- | [<- | []]]]].
  - exists ("I understand you said: " ++ dq). eexists. reflexivity.
  - exists ("Thank you for your message: " ++ dq). eexists. reflexivity.
  - exists ("Mock AI Response: I received your message " ++ dq). eexists. reflexivity.
  - exists ("Hello! You asked: " ++ dq). eexists. reflexivity.
Qed.

Lemma fetches_app (l1 l2 : list Event) :
  fetches (l1 ++ l2) = (fetches l1 ++ fetches l2)%list.
Proof. apply flat_map_app. Qed.

Lemma noApiKey_blank (this : ChatGPTService) :
  apiKey this = "" \/ trim (apiKey this) = "" -> noApiKey this = true.
Proof.
  unfold noApiKey. intros [H | H]; rewrite H.
  - reflexivity.
  - rewrite String.eqb_refl. apply orb_true_r.
Qed.

Lemma hostWith_random (answer : outcome HttpResponse) :
  random_in_unit (Examples.hostWith answer).
Proof. intros n. split; cbn; unfold Qle, Qlt; cbn; lia. Qed.

(** ** The completion client *)

Ltac run :=
  unfold tryCompletion, bind, host, JS.fetch, text, json, lift, throw, ret.

Section TryBlock.
Variables (h : Host) (this : ChatGPTService) (rb : ChatCompletionRequest) (w : World).
Let req := completionCall h this rb.

Lemma tryCompletion_transport (e : Error) :
  upstream h req = Throw e ->
  tryCompletion this rb h w = (Throw e, record (Fetch req) w).
Proof. intros H. run. fold req. rewrite H. reflexivity. Qed.

Lemma tryCompletion_bad_status (r : HttpResponse) :
  upstream h req = Return r -> ok r = false ->
  exists e, tryCompletion this rb h w = (Throw e, record (Fetch req) w).
Proof.
  intros H Hok. run. fold req. rewrite H, Hok. cbn [negb].
  destruct (res_text r); eexists; reflexivity.
Qed.

Lemma tryCompletion_malformed (r : HttpResponse) (e : Error) :
  upstream h req = Return r -> ok r = true ->
  parse_body h (res_text r) = Throw e ->
  tryCompletion this rb h w = (Throw e, record (Fetch req) w).
Proof. intros H Hok Hp. run. fold req. rewrite H, Hok, Hp. reflexivity. Qed.

Lemma tryCompletion_zero_choices (r : HttpResponse) (data : value) :
  upstream h req = Return r -> ok r = true ->
  parse_body h (res_text r) = Return data ->
  get data "choices" = Return (Arr []) ->
  tryCompletion this rb h w
  = (Throw (mkError "Error" "No response from ChatGPT API"), record (Fetch req) w).
Proof. intros H Hok Hp Hc. run. fold req. rewrite H, Hok, Hp, Hc. reflexivity. Qed.

Lemma tryCompletion_first_choice (r : HttpResponse) (data choice msg : value)
    (others : list value) :
  upstream h req = Return r -> ok r = true ->
  parse_body h (res_text r) = Return data ->
  get data "choices" = Return (Arr (choice :: others)) ->
  get choice "message" = Return msg ->
  tryCompletion this rb h w = (get msg "content", record (Fetch req) w).
Proof.
  intros H Hok Hp Hc Hm. run. fold req. rewrite H, Hok, Hp, Hc.
  cbn [negb truthy get first].
  replace (gt_zero _ _) with true.
  - rewrite Hm. destruct (get msg "content"); reflexivity.
  - symmetry. unfold gt_zero, ToNumber. apply of_integer_positive.
    cbn [length]. lia.
Qed.

(** Whatever the upstream answers, the block calls [fetch] once and leaves
    no other trace. *)
Lemma tryCompletion_world :
  snd (tryCompletion this rb h w) = record (Fetch req) w.
Proof.
  run. fold req.
  destruct (upstream h req) as [r | e]; [| reflexivity].
  destruct (ok r); cbn [negb]; [| destruct (res_text r); reflexivity].
  destruct (parse_body h (res_text r)) as [data | e]; [| reflexivity].
  destruct (get data "choices") as [choices | e]; [| reflexivity].
  destruct (truthy choices).
  - destruct (get choices "length") as [len | e]; [| reflexivity].
    destruct (gt_zero (Number_toString h) len); [| reflexivity].
    destruct (first choices) as [c | e]; [| reflexivity].
    destruct (get c "message") as [m | e]; [| reflexivity].
    destruct (get m "content"); reflexivity.
  - reflexivity.
Qed.

End TryBlock.

Lemma sendMessage_upstream (this : ChatGPTService) (message : string)
    (options : option Options) (h : Host) (w : World) :
  noApiKey this = false ->
  ChatGPT.sendMessage this message options h w
  = match tryCompletion this (buildRequestBody this message options) h w with
    | (Return v, w') => (Return v, w')
    | (Throw e, w') =>
        getMockResponse message h (record (ConsoleError "ChatGPT API error:" e) w')
    end.
Proof. intros Hk. unfold ChatGPT.sendMessage. rewrite Hk. reflexivity. Qed.

Lemma sendMessage_no_credential_run (this : ChatGPTService) (message : string)
    (options : option Options) (h : Host) (w : World) :
  noApiKey this = true ->
  ChatGPT.sendMessage this message options h w
  = getMockResponse message h
      (record (ConsoleWarn "ChatGPT API key not provided, returning mock response") w).
Proof. intros Hk. unfold ChatGPT.sendMessage. rewrite Hk. reflexivity. Qed.

(** A failed attempt is logged and answered with one of the four templates. *)
Lemma sendMessage_fallback (this : ChatGPTService) (message : string)
    (options : option Options) (h : Host) (w : World) (e : Error) :
  random_in_unit h ->
  noApiKey this = false ->
  tryCompletion this (buildRequestBody this message options) h w
  = (Throw e, record (Fetch (upstreamRequest h this message options)) w) ->
  exists t,
    ChatGPT.sendMessage this message options h w
    = (Return (Str t),
       mkWorld (events w ++ [Fetch (upstreamRequest h this message options);
                             ConsoleError "ChatGPT API error:" e])
               (S (draws w)) (ticks w))
    /\ In t (mockResponses message).
Proof.
  intros Hr Hk Ht. rewrite sendMessage_upstream, Ht by assumption.
  destruct (getMockResponse_placeholder message h
              (record (ConsoleError "ChatGPT API error:" e)
                 (record (Fetch (upstreamRequest h this message options)) w)) Hr)
    as [t [Hrun Hin]].
  exists t. split; [| exact Hin]. rewrite Hrun.
  cbn [record events draws ticks]. rewrite <- app_assoc. reflexivity.
Qed.

(** [sendMessage] always returns, with or without a credential. *)
Lemma sendMessage_total (this : ChatGPTService) (message : string)
    (options : option Options) (h : Host) (w : World) :
  exists v w', ChatGPT.sendMessage this message options h w = (Return v, w').
Proof.
  unfold ChatGPT.sendMessage. destruct (noApiKey this).
  - eexists. eexists. reflexivity.
  - unfold try_catch.
    destruct (tryCompletion _ _ h w) as [[v | e] w1].
    + eexists. eexists. reflexivity.
    + eexists. eexists. reflexivity.
Qed.

(** C1.  With a credential configured, [sendMessage] returns a value and
    never throws; when the upstream call fails (the transport rejects, the
    status is not a success, the body cannot be read or parsed, or the body
    holds no choice) the value is one of the four placeholder templates
    filled with the message. *)
Theorem sendMessage_never_raises :
  forall (h : Host) (this : ChatGPTService) (message : string)
         (options : option Options) (w : World),
    random_in_unit h ->
    noApiKey this = false ->
    (exists v w', ChatGPT.sendMessage this message options h w = (Return v, w'))
    /\ (upstream_failure h (upstreamRequest h this message options) ->
        exists t w',
          ChatGPT.sendMessage this message options h w = (Return (Str t), w')
          /\ In t (mockResponses message)).
Proof.
  intros h this message options w Hr Hk. split.
  - apply sendMessage_total.
  - intros Hf.
    assert (He : exists e,
               tryCompletion this (buildRequestBody this message options) h w
               = (Throw e, record (Fetch (upstreamRequest h this message options)) w)).
    { destruct Hf as [e H | r H Hok | r e H Hok Hp | r data H Hok Hp Hc].
      - exists e. apply tryCompletion_transport. exact H.
      - apply (tryCompletion_bad_status h this _ w r H Hok).
      - exists e. apply (tryCompletion_malformed h this _ w r e H Hok Hp).
      - eexists. apply (tryCompletion_zero_choices h this _ w r data H Hok Hp Hc). }
    destruct He as [e He].
    destruct (sendMessage_fallback this message options h w e Hr Hk He)
      as [t [Hrun Hin]].
    exists t. eexists. split; [exact Hrun | exact Hin].
Qed.

(** C1 at a host whose network is down: the reply is a placeholder. *)
Lemma sendMessage_never_raises_witness :
  exists t w',
    ChatGPT.sendMessage Examples.service "Hello" None Examples.offline Examples.start
    = (Return (Str t), w')
    /\ In t (mockResponses "Hello").
Proof.
  exact (proj2 (sendMessage_never_raises Examples.offline Examples.service "Hello" None
                  Examples.start (hostWith_random _) eq_refl)
           (transport_error Examples.offline
              (upstreamRequest Examples.offline Examples.service "Hello" None)
              (mkError "TypeError" "fetch failed") eq_refl)).
Defined.

(** C2.  Without a credential (none, or only white space) [sendMessage]
    never calls [fetch] and returns one of the four placeholder templates,
    which contains the message as it was given. *)
Theorem sendMessage_without_credential :
  forall (h : Host) (this : ChatGPTService) (message : string)
         (options : option Options) (w : World),
    random_in_unit h ->
    apiKey this = "" \/ trim (apiKey this) = "" ->
    exists t w',
      ChatGPT.sendMessage this message options h w = (Return (Str t), w')
      /\ In t (mockResponses message)
      /\ contains t message
      /\ fetches (events w') = fetches (events w).
Proof.
  intros h this message options w Hr Hk.
  rewrite (sendMessage_no_credential_run this message options h w (noApiKey_blank this Hk)).
  destruct (getMockResponse_placeholder message h
              (record (ConsoleWarn "ChatGPT API key not provided, returning mock response") w)
              Hr)
    as [t [Hrun Hin]].
  exists t. eexists. split; [exact Hrun |].
  split; [exact Hin |]. split; [exact (mockResponses_contain _ _ Hin) |].
  cbn [events record]. rewrite fetches_app. cbn. apply app_nil_r.
Qed.

(** C2 for a key made of blanks. *)
Lemma sendMessage_without_credential_witness :
  exists t w',
    ChatGPT.sendMessage
      (constructor {| config_apiKey := "   "; config_model := None;
                      config_maxTokens := None; config_temperature := None |})
      "Hello" None Examples.online Examples.start
    = (Return (Str t), w')
    /\ In t (mockResponses "Hello")
    /\ contains t "Hello"
    /\ fetches (events w') = fetches (events Examples.start).
Proof.
  apply sendMessage_without_credential.
  - apply hostWith_random.
  - right. reflexivity.
Defined.

(** C3.  With a credential, a successful status and a body that parses to
    an object whose [choices] is an array: if the array has a first choice,
    [sendMessage] returns the [content] of its [message] as it stands and
    only calls [fetch]; if the array is empty, the call counts as failed:
    the error is logged and a placeholder is returned. *)
Theorem sendMessage_first_choice :
  forall (h : Host) (this : ChatGPTService) (message : string)
         (options : option Options) (w : World)
         (response : HttpResponse) (body : string) (data : value),
    random_in_unit h ->
    noApiKey this = false ->
    upstream h (upstreamRequest h this message options) = Return response ->
    ok response = true ->
    res_text response = Return body ->
    JSON_parse h body = Return data ->
    (forall (choice : value) (others : list value) (msg answer : value),
        get data "choices" = Return (Arr (choice :: others)) ->
        get choice "message" = Return msg ->
        get msg "content" = Return answer ->
        ChatGPT.sendMessage this message options h w
        = (Return answer, record (Fetch (upstreamRequest h this message options)) w))
    /\ (get data "choices" = Return (Arr []) ->
        exists t,
          ChatGPT.sendMessage this message options h w
          = (Return (Str t),
             mkWorld (events w ++ [Fetch (upstreamRequest h this message options);
                                   ConsoleError "ChatGPT API error:"
                                     (mkError "Error" "No response from ChatGPT API")])
                     (S (draws w)) (ticks w))
          /\ In t (mockResponses message)).
Proof.
  intros h this message options w response body data Hr Hk Hup Hok Hbody Hparse.
  assert (Hp : parse_body h (res_text response) = Return data)
    by (rewrite Hbody; exact Hparse).
  split.
  - intros choice others msg answer Hc Hm Ha.
    rewrite sendMessage_upstream by assumption.
    unfold upstreamRequest in *.
    rewrite (tryCompletion_first_choice h this _ w response data choice msg others
               Hup Hok Hp Hc Hm), Ha.
    reflexivity.
  - intros Hc.
    apply sendMessage_fallback; try assumption.
    apply (tryCompletion_zero_choices h this _ w response data Hup Hok Hp Hc).
Qed.

(** C3 on the completion of the examples. *)
Lemma sendMessage_first_choice_witness :
  ChatGPT.sendMessage Examples.service "Hello" None Examples.online Examples.start
  = (Return (Str "Hello there!"),
     record (Fetch (upstreamRequest Examples.online Examples.service "Hello" None))
       Examples.start).
Proof.
  exact (proj1 (sendMessage_first_choice Examples.online Examples.service "Hello" None
                  Examples.start
                  {| res_status := 200; res_text := Return Examples.completion_text |}
                  Examples.completion_text Examples.completion
                  (hostWith_random _) eq_refl eq_refl eq_refl eq_refl eq_refl)
           (Obj [("index", Num zero);
                 ("message", Obj [("role", Str "assistant");
                                  ("content", Str "Hello there!")]);
                 ("finish_reason", Str "stop")])
           []
           (Obj [("role", Str "assistant"); ("content", Str "Hello there!")])
           (Str "Hello there!")
           eq_refl eq_refl eq_refl).
Defined.

(** *** The request sent upstream *)

Lemma or_string_given (o : option string) (d : string) :
  or_string o d = given_or o d.
Proof. destruct o as [[| c s] |]; reflexivity. Qed.

Lemma buildRequestBody_shape (this : ChatGPTService) (message : string)
    (options : option Options) :
  buildRequestBody this message options
  = {| model := given_or (opt options opt_model) (defaultModel this);
       messages := match opt options systemPrompt with
                   | Some EmptyString | None =>
                       [ {| role := user; content := message |} ]
                   | Some prompt =>
                       [ {| role := system; content := prompt |};
                         {| role := user; content := message |} ]
                   end;
       max_tokens := Some (maxTokens this);
       temperature_ := Some (temperature this);
       stream := None |}.
Proof.
  unfold buildRequestBody, buildMessages. rewrite or_string_given.
  destruct (opt options systemPrompt) as [[| c s] |]; reflexivity.
Qed.

(** On the upstream path [fetch] is called exactly once, fallback or not. *)
Lemma sendMessage_fetches (this : ChatGPTService) (message : string)
    (options : option Options) (h : Host) (w : World) :
  noApiKey this = false ->
  fetches (events (snd (ChatGPT.sendMessage this message options h w)))
  = (fetches (events w) ++ [upstreamRequest h this message options])%list.
Proof.
  intros Hk. rewrite sendMessage_upstream by assumption.
  pose proof (tryCompletion_world h this (buildRequestBody this message options) w) as Hw.
  destruct (tryCompletion this (buildRequestBody this message options) h w)
    as [[v | e] w1]; cbn [snd] in Hw; subst w1.
  - cbn [snd record events]. rewrite fetches_app. reflexivity.
  - rewrite getMockResponse_run. cbn [snd record events].
    rewrite !fetches_app. cbn. rewrite app_nil_r. reflexivity.
Qed.

(** C6, as amended.  On the upstream path [sendMessage] calls [fetch] once,
    with a request whose turns are a system turn first, if and only if
    [options.systemPrompt] is given and not empty, then one user turn with
    the message; whose model is [options.model] if it is given and not
    empty, the configured default model otherwise; and whose [max_tokens]
    and [temperature] are the configured ones. *)
Theorem sendMessage_request :
  forall (h : Host) (this : ChatGPTService) (message : string)
         (options : option Options) (w : World),
    noApiKey this = false ->
    fetches (events (snd (ChatGPT.sendMessage this message options h w)))
    = (fetches (events w) ++
       [completionCall h this
          {| model := given_or (opt options opt_model) (defaultModel this);
             messages := match opt options systemPrompt with
                         | Some EmptyString | None =>
                             [ {| role := user; content := message |} ]
                         | Some prompt =>
                             [ {| role := system; content := prompt |};
                               {| role := user; content := message |} ]
                         end;
             max_tokens := Some (maxTokens this);
             temperature_ := Some (temperature this);
             stream := None |}])%list.
Proof.
  intros h this message options w Hk.
  rewrite sendMessage_fetches by assumption.
  unfold upstreamRequest. rewrite buildRequestBody_shape. reflexivity.
Qed.

(** C6 as amended, with a system prompt and a model in the options. *)
Lemma sendMessage_request_witness :
  fetches (events (snd (ChatGPT.sendMessage Examples.service "Hello"
                          (Some {| conversationId := None;
                                   opt_model := Some "gpt-4o";
                                   systemPrompt := Some "Be brief." |})
                          Examples.online Examples.start)))
  = [completionCall Examples.online Examples.service
       {| model := "gpt-4o";
          messages := [ {| role := system; content := "Be brief." |};
                        {| role := user; content := "Hello" |} ];
          max_tokens := Some thousand;
          temperature_ := Some seven_tenths;
          stream := None |}].
Proof.
  exact (sendMessage_request Examples.online Examples.service "Hello"
           (Some {| conversationId := None;
                    opt_model := Some "gpt-4o";
                    systemPrompt := Some "Be brief." |})
           Examples.start eq_refl).
Defined.

(** C6 as stated fails: an empty system prompt is given and no system turn
    is sent, and an empty model is given and the default model is sent, so
    the request differs from the one the claim describes. *)
Lemma empty_prompt_and_model_are_dropped :
  (messages (buildRequestBody Examples.service "Hello" (Some Examples.emptyPrompt))
   = [ {| role := user; content := "Hello" |} ]
   /\ fetches (events (snd (ChatGPT.sendMessage Examples.service "Hello"
                              (Some Examples.emptyPrompt)
                              Examples.online Examples.start)))
      <> [completionCall Examples.online Examples.service
            (request_as_claimed Examples.service "Hello" (Some Examples.emptyPrompt))])
  /\ (model (buildRequestBody Examples.service "Hello" (Some Examples.emptyModel))
      = "gpt-4"
      /\ fetches (events (snd (ChatGPT.sendMessage Examples.service "Hello"
                                 (Some Examples.emptyModel)
                                 Examples.online Examples.start)))
         <> [completionCall Examples.online Examples.service
               (request_as_claimed Examples.service "Hello" (Some Examples.emptyModel))]).
Proof.
  split; (split; [reflexivity | intros H; vm_compute in H; discriminate H]).
Qed.

(** *** Falsy settings *)

Lemma or_number_truthy (o : option number) (d : number) :
  JSNumber.truthy d = true -> JSNumber.truthy (or_number o d) = true.
Proof.
  intros Hd. destruct o as [x |]; cbn [or_number]; [| exact Hd].
  destruct (JSNumber.truthy x) eqn:Hx; assumption.
Qed.

Lemma or_string_nonempty (o : option string) (d : string) :
  d <> "" -> or_string o d <> "".
Proof.
  intros Hd. destruct o as [[| c s] |]; cbn; try assumption. discriminate.
Qed.

Lemma constructor_truthy (config : ChatGPTConfig) :
  JSNumber.truthy (temperature (constructor config)) = true
  /\ JSNumber.truthy (maxTokens (constructor config)) = true
  /\ defaultModel (constructor config) <> "".
Proof.
  cbn [constructor temperature maxTokens defaultModel]. repeat split.
  - apply or_number_truthy. reflexivity.
  - apply or_number_truthy. reflexivity.
  - apply or_string_nonempty. discriminate.
Qed.

(** C10.  A temperature of 0 given to the constructor, or [TEMPERATURE="0"]
    in the environment, yields 0.7; a [maxTokens] of 0, or [MAX_TOKENS="0"],
    yields 1000; an empty model yields ['gpt-3.5-turbo'].  So no service,
    built by the constructor or by the factory and whatever key it is given
    later, has a temperature or a token cap of zero, or an empty model. *)
Theorem falsy_settings_take_the_defaults :
  (forall key model maxTokens,
      temperature (constructor {| config_apiKey := key; config_model := model;
                                  config_maxTokens := maxTokens;
                                  config_temperature := Some zero |}) = seven_tenths)
  /\ (forall key model temperature,
         maxTokens (constructor {| config_apiKey := key; config_model := model;
                                   config_maxTokens := Some zero;
                                   config_temperature := temperature |}) = thousand)
  /\ (forall key maxTokens temperature,
         defaultModel (constructor {| config_apiKey := key; config_model := Some "";
                                      config_maxTokens := maxTokens;
                                      config_temperature := temperature |})
         = "gpt-3.5-turbo")
  /\ (forall key model maxTokens environment origins,
         temperature (createChatGPTService
                        {| OPENAI_API_KEY := key; OPENAI_MODEL := model;
                           MAX_TOKENS := maxTokens; TEMPERATURE := Some "0";
                           ENVIRONMENT := environment; ALLOWED_ORIGINS := origins |})
         = seven_tenths)
  /\ (forall key model temperature environment origins,
         maxTokens (createChatGPTService
                      {| OPENAI_API_KEY := key; OPENAI_MODEL := model;
                         MAX_TOKENS := Some "0"; TEMPERATURE := temperature;
                         ENVIRONMENT := environment; ALLOWED_ORIGINS := origins |})
         = thousand)
  /\ (forall key maxTokens temperature environment origins,
         defaultModel (createChatGPTService
                         {| OPENAI_API_KEY := key; OPENAI_MODEL := Some "";
                            MAX_TOKENS := maxTokens; TEMPERATURE := temperature;
                            ENVIRONMENT := environment; ALLOWED_ORIGINS := origins |})
         = "gpt-3.5-turbo")
  /\ (forall config key,
         let service := updateApiKey (constructor config) key in
         temperature service <> zero /\ temperature service <> neg_zero
         /\ maxTokens service <> zero /\ maxTokens service <> neg_zero
         /\ defaultModel service <> "")
  /\ (forall env key,
         let service := updateApiKey (createChatGPTService env) key in
         temperature service <> zero /\ temperature service <> neg_zero
         /\ maxTokens service <> zero /\ maxTokens service <> neg_zero
         /\ defaultModel service <> "").
Proof.
  assert (Hnz : forall x, JSNumber.truthy x = true -> x <> zero /\ x <> neg_zero).
  { intros x H. split; intros ->; discriminate H. }
  repeat split; try reflexivity;
    cbn [updateApiKey temperature maxTokens defaultModel];
    try (apply Hnz; apply constructor_truthy);
    try apply constructor_truthy.
Qed.

(** ** The gateway *)

Import Runtime Worker.

Lemma cors_after_content_type (ct : string) (s : Z) (b : option string) :
  has_cors_headers {| status := s;
                      headers := spread [("Content-Type", ct)] corsHeaders;
                      response_body := b |}.
Proof. repeat split. Qed.

Lemma cors_preflight :
  has_cors_headers {| status := 200; headers := corsHeaders; response_body := None |}.
Proof. repeat split. Qed.

(** C5.  Every response the handler returns, whatever the request, the
    environment, the engine and the host, carries the three cross-origin
    headers with their fixed values. *)
Theorem every_response_has_cors_headers :
  forall (graphql : Engine) (request : Request) (env : Env)
         (h : Host) (w w' : World) (response : Response),
    Worker.fetch graphql request env h w = (Return response, w') ->
    has_cors_headers response.
Proof.
  intros graphql request env h w w' response.
  unfold Worker.fetch, handleCORS.
  destruct (method request =? "OPTIONS")%string.
  { intros H; inversion H; subst. apply cors_preflight. }
  destruct (pathname (url request) =? "/health")%string.
  { unfold bind, ret, stringify, host, Schema.isoNow, now.
    intros H; inversion H; subst. apply cors_after_content_type. }
  destruct (pathname (url request) =? "/graphql")%string.
  { unfold bind at 1.
    destruct (parseGraphQLRequest request h w) as [[g | e] w1]; [| discriminate].
    destruct (truthy g); cbn [negb].
    - unfold try_catch, bind, ret, stringify, host, lift, console_error, emit.
      destruct (get g "query") as [q | e];
        [ destruct (get g "variables") as [v | e];
          [ destruct (get g "operationName") as [o | e];
            [ match goal with
              | |- context [graphql ?a h w1] =>
                  destruct (graphql a h w1) as [[r | e] w2]
              end | ] | ] | ];
        intros H; inversion H; subst; apply cors_after_content_type.
    - unfold bind, ret, stringify, host.
      intros H; inversion H; subst. apply cors_after_content_type. }
  destruct ((pathname (url request) =? "/playground")%string
            || (pathname (url request) =? "/")%string).
  { unfold ret. intros H; inversion H; subst. apply cors_after_content_type. }
  unfold bind, ret, stringify, host.
  intros H; inversion H; subst. apply cors_after_content_type.
Qed.

(** C5 on the liveness probe. *)
Lemma every_response_has_cors_headers_witness :
  has_cors_headers
    {| status := 200;
       headers := [("Content-Type", "application/json");
                   ("Access-Control-Allow-Origin", "*");
                   ("Access-Control-Allow-Methods", "GET, POST, OPTIONS");
                   ("Access-Control-Allow-Headers", "Content-Type, Authorization")];
       response_body :=
         JSON_stringify Examples.print
           (Obj [("status", Str "healthy");
                 ("timestamp", Str "2024-01-01T00:00:00.000Z");
                 ("version", Str "1.0.0")]) |}.
Proof.
  exact (every_response_has_cors_headers Examples.idleEngine Examples.healthRequest
           Examples.noEnv Examples.offline Examples.start
           {| events := []; draws := 0; ticks := 1 |} _ eq_refl).
Defined.

(** C8.  A request whose method is OPTIONS, whatever its path, is answered
    with status 200, no body and exactly the three cross-origin headers;
    the world is left as it was: nothing is parsed, no route is tried and
    the engine is not called. *)
Theorem preflight_short_circuits :
  forall (graphql : Engine) (request : Request) (env : Env) (h : Host) (w : World),
    method request = "OPTIONS" ->
    Worker.fetch graphql request env h w
    = (Return {| status := 200; headers := corsHeaders; response_body := None |}, w)
    /\ has_cors_headers {| status := 200; headers := corsHeaders; response_body := None |}.
Proof.
  intros graphql request env h w Hm. split; [| apply cors_preflight].
  unfold Worker.fetch, handleCORS. rewrite Hm. reflexivity.
Qed.

(** C8 on a path that is no route. *)
Lemma preflight_short_circuits_witness :
  Worker.fetch Examples.idleEngine Examples.preflightRequest Examples.noEnv
    Examples.offline Examples.start
  = (Return {| status := 200; headers := corsHeaders; response_body := None |},
     Examples.start)
  /\ has_cors_headers {| status := 200; headers := corsHeaders; response_body := None |}.
Proof.
  exact (preflight_short_circuits Examples.idleEngine Examples.preflightRequest
           Examples.noEnv Examples.offline Examples.start eq_refl).
Defined.

(** C4, what the code does.  A POST to [/graphql] with a JSON body that
    parses to an object, with or without a [query] field, is never answered
    with 400: the object goes to the engine, and the status is 200 when the
    engine returns and 500 when it throws. *)
Theorem post_json_object_is_not_rejected :
  forall (graphql : Engine) (request : Request) (env : Env) (h : Host) (w : World)
         (text : string) (props : list (string * value)),
    method request = "POST" ->
    pathname (url request) = "/graphql" ->
    includes_opt (content_type request) "application/json" = true ->
    body request = Return text ->
    JSON_parse h text = Return (Obj props) ->
    exists response w',
      Worker.fetch graphql request env h w = (Return response, w')
      /\ (status response = 200 \/ status response = 500)%Z.
Proof.
  intros graphql request env h w text props Hm Hp Hct Hb Hj.
  unfold Worker.fetch, handleCORS, parseGraphQLRequest.
  rewrite Hm, Hp, Hct. cbn [String.eqb Ascii.eqb Bool.eqb andb].
  unfold bind at 1. unfold try_catch at 1. unfold json, parse_body.
  rewrite Hb, Hj. cbn [truthy negb].
  unfold try_catch, bind, ret, stringify, host, lift, console_error, emit.
  cbn [get].
  match goal with
  | |- context [graphql ?a h w] => destruct (graphql a h w) as [[r | e] w2]
  end; eexists; eexists; (split; [reflexivity |]); cbn [status]; auto.
Qed.

(** C4 at the body [{}], which has no query field. *)
Lemma post_json_object_is_not_rejected_witness :
  exists response w',
    Worker.fetch Examples.idleEngine Examples.postWithoutQuery Examples.noEnv
      Examples.offline Examples.start
    = (Return response, w')
    /\ (status response = 200 \/ status response = 500)%Z.
Proof.
  exact (post_json_object_is_not_rejected Examples.idleEngine Examples.postWithoutQuery
           Examples.noEnv Examples.offline Examples.start "{}" []
           eq_refl eq_refl eq_refl eq_refl eq_refl).
Defined.

(** The response to the body [{}]: status 200 and the engine's result. *)
Lemma post_without_query_response :
  Worker.fetch Examples.idleEngine Examples.postWithoutQuery Examples.noEnv
    Examples.offline Examples.start
  = (Return {| status := 200;
               headers := spread [("Content-Type", "application/json")] corsHeaders;
               response_body := JSON_stringify Examples.print (Obj [("data", Obj [])]) |},
     Examples.start).
Proof. reflexivity. Qed.

(** C7, what the code does.  A GET to [/graphql] with a query and with
    variables that are not valid JSON is not answered at all: the exception
    of [JSON.parse] leaves the handler, which returns no response. *)
Theorem get_with_invalid_variables_throws :
  forall (graphql : Engine) (request : Request) (env : Env) (h : Host) (w : World)
         (query variables : string) (e : Error),
    method request = "GET" ->
    pathname (url request) = "/graphql" ->
    searchParams_get "query" (searchParams (url request)) = Some query ->
    query <> "" ->
    searchParams_get "variables" (searchParams (url request)) = Some variables ->
    variables <> "" ->
    JSON_parse h variables = Throw e ->
    Worker.fetch graphql request env h w = (Throw e, w).
Proof.
  intros graphql request env h w query variables e Hm Hp Hq Hqn Hv Hvn Hj.
  unfold Worker.fetch, handleCORS, parseGraphQLRequest.
  rewrite Hm, Hp, Hq, Hv. cbn [String.eqb Ascii.eqb Bool.eqb andb].
  assert (Tq : truthy (Str query) = true)
    by (destruct query; [contradiction | reflexivity]).
  assert (Tv : truthy (Str variables) = true)
    by (destruct variables; [contradiction | reflexivity]).
  rewrite Tq, Tv. unfold bind, json, parse_body. rewrite Hj. reflexivity.
Qed.

(** C7 at [GET /graphql?query={hello}&variables={oops]. *)
Lemma get_with_invalid_variables_throws_witness :
  Worker.fetch Examples.idleEngine Examples.getWithBadVariables Examples.noEnv
    Examples.offline Examples.start
  = (Throw (mkError "SyntaxError" "Unexpected token"), Examples.start).
Proof.
  refine (get_with_invalid_variables_throws Examples.idleEngine
            Examples.getWithBadVariables Examples.noEnv Examples.offline Examples.start
            "{hello}" "{oops" (mkError "SyntaxError" "Unexpected token")
            eq_refl eq_refl eq_refl _ eq_refl _ eq_refl); discriminate.
Defined.

(** The first half of C7 holds: variables that parse reach the engine as
    the parsed value, and its result is returned with status 200. *)
Lemma get_variables_reach_the_engine :
  forall (graphql : Engine) (request : Request) (env : Env) (h : Host) (w w' : World)
         (query variables : string) (parsed result : value),
    method request = "GET" ->
    pathname (url request) = "/graphql" ->
    searchParams_get "query" (searchParams (url request)) = Some query ->
    query <> "" ->
    searchParams_get "variables" (searchParams (url request)) = Some variables ->
    variables <> "" ->
    JSON_parse h variables = Return parsed ->
    graphql {| args_schema := Schema.schema;
               source := Str query;
               variableValues := parsed;
               operationName :=
                 or_undefined (searchParams_get "operationName"
                                 (searchParams (url request)));
               contextValue := {| Schema.chatService := createChatGPTService env;
                                  Schema.env := env;
                                  Schema.request := request |} |} h w
    = (Return result, w') ->
    Worker.fetch graphql request env h w
    = (Return {| status := 200;
                 headers := spread [("Content-Type", "application/json")] corsHeaders;
                 response_body := JSON_stringify (Number_toString h) result |}, w').
Proof.
  intros graphql request env h w w' query variables parsed result
         Hm Hp Hq Hqn Hv Hvn Hj Hg.
  unfold Worker.fetch, handleCORS, parseGraphQLRequest.
  rewrite Hm, Hp, Hq, Hv. cbn [String.eqb Ascii.eqb Bool.eqb andb].
  assert (Tq : truthy (Str query) = true)
    by (destruct query; [contradiction | reflexivity]).
  assert (Tv : truthy (Str variables) = true)
    by (destruct variables; [contradiction | reflexivity]).
  rewrite Tq, Tv.
  unfold try_catch, bind, json, parse_body, ret, lift, stringify, host. rewrite Hj.
  cbn [truthy negb get lookup String.eqb Ascii.eqb Bool.eqb andb].
  rewrite Hg. reflexivity.
Qed.

(** ** The mutation *)

Lemma given_or_twice (o : option string) (d : string) :
  given_or (Some (given_or o "gpt-3.5-turbo")) d = given_or o "gpt-3.5-turbo".
Proof. destruct o as [[| c s] |]; reflexivity. Qed.

(** With a model given in the options, the default model of the service
    plays no part in [sendMessage]. *)
Lemma sendMessage_ignores_default (this : ChatGPTService) (other : string)
    (message : string) (options : Options) (h : Host) (w : World) :
  truthy_opt (opt_model options) = true ->
  ChatGPT.sendMessage
    {| apiKey := apiKey this; baseUrl := baseUrl this; defaultModel := other;
       maxTokens := maxTokens this; temperature := temperature this |}
    message (Some options) h w
  = ChatGPT.sendMessage this message (Some options) h w.
Proof.
  intros Hm. unfold ChatGPT.sendMessage, noApiKey. cbn [apiKey].
  destruct (negb (truthy (Str (apiKey this))) || (trim (apiKey this) =? "")%string);
    [reflexivity |].
  assert (Hb : forall d, or_string (opt_model options) d
                         = or_string (opt_model options) "")
    by (intros d; destruct (opt_model options) as [[| c s] |];
        [discriminate Hm | reflexivity | discriminate Hm]).
  unfold buildRequestBody, tryCompletion, completionCall, opt.
  cbn [apiKey baseUrl defaultModel maxTokens temperature].
  rewrite (Hb other), (Hb (defaultModel this)). reflexivity.
Qed.

(** C9, as amended.  For a [sendMessage] mutation run with the service the
    gateway creates from the environment, let the requested model be
    [input.model] if it is given and not empty and ['gpt-3.5-turbo']
    otherwise.  The resolver returns a [ChatResponse] whose model is the
    requested one, whatever the upstream answers; when a credential is
    configured the one request sent upstream names the requested model, and
    without a credential nothing is sent; and the outcome is the same
    whatever [OPENAI_MODEL] holds. *)
Theorem mutation_reports_the_requested_model :
  forall (input : Schema.MessageInput) (env : Env) (request : Request)
         (h : Host) (w : World),
    let service := createChatGPTService env in
    let context := {| Schema.chatService := service;
                      Schema.env := env;
                      Schema.request := request |} in
    let requested := given_or (Schema.input_model input) "gpt-3.5-turbo" in
    (exists response w',
        Schema.sendMessage input context h w = (Return response, w')
        /\ Schema.model response = requested
        /\ fetches (events w')
           = (fetches (events w) ++
              if noApiKey service then []
              else [completionCall h service
                      {| model := requested;
                         messages := [ {| role := user;
                                          content := Schema.input_message input |} ];
                         max_tokens := Some (maxTokens service);
                         temperature_ := Some (temperature service);
                         stream := None |}])%list)
    /\ (forall model',
           let env' := {| OPENAI_API_KEY := OPENAI_API_KEY env;
                          OPENAI_MODEL := model';
                          MAX_TOKENS := MAX_TOKENS env;
                          TEMPERATURE := TEMPERATURE env;
                          ENVIRONMENT := ENVIRONMENT env;
                          ALLOWED_ORIGINS := ALLOWED_ORIGINS env |} in
           Schema.sendMessage input
             {| Schema.chatService := createChatGPTService env';
                Schema.env := env';
                Schema.request := request |} h w
           = Schema.sendMessage input context h w).
Proof.
  intros input env request h w service context requested. split.
  - unfold Schema.sendMessage, try_catch. unfold bind at 1.
    cbn [Schema.chatService context].
    set (options := Some _).
    pose proof (sendMessage_fetches service (Schema.input_message input) options h w)
      as Hf.
    pose proof (sendMessage_no_credential_run service (Schema.input_message input)
                  options h w) as Hn.
    destruct (sendMessage_total service (Schema.input_message input) options h w)
      as [v [w1 Hrun]].
    rewrite Hrun in *. cbn [snd] in Hf.
    unfold Schema.generateId, Schema.isoNow, bind, ret, host, random, now.
    eexists. eexists. split; [reflexivity |].
    split; [apply or_string_given |].
    cbn [events].
    destruct (noApiKey service).
    + specialize (Hn eq_refl). rewrite getMockResponse_run in Hn.
      inversion Hn; subst. cbn [events record]. rewrite fetches_app. reflexivity.
    + rewrite Hf by reflexivity. f_equal. f_equal.
      unfold upstreamRequest. rewrite buildRequestBody_shape.
      unfold options. cbn [opt opt_model systemPrompt].
      rewrite or_string_given, given_or_twice. reflexivity.
  - intros model' env'. unfold Schema.sendMessage, try_catch. unfold bind at 1 3.
    cbn [Schema.chatService context].
    set (options := {| conversationId := _; opt_model := _; systemPrompt := _ |}).
    assert (Hm : truthy_opt (opt_model options) = true)
      by (unfold options; cbn; destruct (Schema.input_model input) as [[| c s] |];
          reflexivity).
    change (createChatGPTService env') with
      {| apiKey := apiKey service;
         baseUrl := baseUrl service;
         defaultModel :=
           or_string (Some (or_string model' "gpt-3.5-turbo")) "gpt-3.5-turbo";
         maxTokens := maxTokens service;
         temperature := temperature service |}.
    rewrite (sendMessage_ignores_default service _ _ options h w Hm).
    reflexivity.
Qed.

(** C9 as stated fails: with the empty string given as [input.model] the
    response reports ['gpt-3.5-turbo'], not the given model, and the request
    sent upstream is not the one that names the given model. *)
Lemma empty_input_model_is_replaced :
  exists response w',
    Schema.sendMessage Examples.emptyModelInput Examples.mutationContext
      Examples.online Examples.start
    = (Return response, w')
    /\ Schema.model response = "gpt-3.5-turbo"
    /\ Schema.model response <> model_as_claimed Examples.emptyModelInput
    /\ fetches (events w')
       <> [completionCall Examples.online Examples.service
             {| model := model_as_claimed Examples.emptyModelInput;
                messages := [ {| role := user; content := "Hello" |} ];
                max_tokens := Some thousand;
                temperature_ := Some seven_tenths;
                stream := None |}].
Proof.
  eexists. eexists. split; [reflexivity |].
  split; [reflexivity |].
  split; [discriminate |].
  intros H; vm_compute in H; discriminate H.
Qed.

(* ================================================================== *)
(** * Further properties of the code                                   *)
(* ================================================================== *)

Import GatewaySpec.

(** ** The client: the probe, the key and odd bodies *)

(** X1.  [validateApiKey] never throws.  Without a credential it answers
    [false] and touches nothing; with one it calls [fetch] once, a GET of
    [baseUrl/models] with the bearer key and no body, and logs nothing.
    Its answer is [true] exactly when a credential is configured and the
    upstream answers with a status from 200 to 299. *)
Theorem validateApiKey_probe :
  forall (this : ChatGPTService) (h : Host) (w : World),
    exists valid : bool,
      validateApiKey this h w
      = (Return valid,
         if noApiKey this then w
         else record (Fetch {| req_url := baseUrl this ++ "/models";
                               req_method := "GET";
                               req_headers :=
                                 [("Authorization", "Bearer " ++ apiKey this)];
                               req_body := None |}) w)
      /\ (valid = true <->
          noApiKey this = false
          /\ exists r,
              upstream h {| req_url := baseUrl this ++ "/models";
                            req_method := "GET";
                            req_headers :=
                              [("Authorization", "Bearer " ++ apiKey this)];
                            req_body := None |} = Return r
              /\ (200 <= res_status r <= 299)%Z).
Proof.
  intros this h w. unfold validateApiKey.
  destruct (noApiKey this).
  - exists false. split; [reflexivity |].
    split; [discriminate | intros [H _]; discriminate H].
  - unfold try_catch, bind, JS.fetch, ret.
    destruct (upstream h _) as [r | e] eqn:Hup.
    + exists (ok r). split; [reflexivity |]. unfold ok. split.
      * intros H. split; [reflexivity |]. exists r. split; [reflexivity |].
        apply andb_true_iff in H. destruct H as [H1 H2].
        apply Z.leb_le in H1. apply Z.leb_le in H2. lia.
      * intros [_ [r' [Hr' Hs]]]. inversion Hr'; subst r'.
        apply andb_true_iff. split; apply Z.leb_le; lia.
    + exists false. split; [reflexivity |]. split; [discriminate |].
      intros [_ [r [Hr _]]]. discriminate Hr.
Qed.

Lemma noApiKey_false_iff (this : ChatGPTService) :
  noApiKey this = false <-> trim (apiKey this) <> "".
Proof.
  unfold noApiKey. split.
  - intros H Ht. rewrite Ht in H. rewrite orb_true_r in H. discriminate H.
  - intros Ht. destruct (apiKey this) as [| c s] eqn:Hk.
    + exfalso. apply Ht. reflexivity.
    + cbn [truthy negb String.eqb orb].
      destruct (String.eqb_spec (trim (String c s)) ""); [contradiction | reflexivity].
Qed.

(** X2.  [updateApiKey] takes effect on the next [sendMessage]: with a new
    key that is not blank the one request sent carries [Bearer] and the new
    key, and its URL and body are those of the service as it was; with a new
    key that is blank nothing is sent any more. *)
Theorem updateApiKey_takes_effect :
  forall (h : Host) (this : ChatGPTService) (key message : string)
         (options : option Options) (w : World),
    (trim key <> "" ->
     fetches (events (snd (ChatGPT.sendMessage (updateApiKey this key)
                             message options h w)))
     = (fetches (events w) ++
        [ {| req_url := (baseUrl this ++ "/chat/completions")%string;
             req_method := "POST";
             req_headers := [("Content-Type", "application/json");
                             ("Authorization", ("Bearer " ++ key)%string)];
             req_body :=
               JSON_stringify (Number_toString h)
                 (request_value (buildRequestBody this message options)) |} ])%list)
    /\ (trim key = "" ->
        fetches (events (snd (ChatGPT.sendMessage (updateApiKey this key)
                                message options h w)))
        = fetches (events w)).
Proof.
  intros h this key message options w. split.
  - intros Hk.
    assert (Hn : noApiKey (updateApiKey this key) = false)
      by (apply noApiKey_false_iff; exact Hk).
    rewrite sendMessage_fetches by exact Hn. reflexivity.
  - intros Hk.
    assert (Hn : noApiKey (updateApiKey this key) = true)
      by (apply noApiKey_blank; right; exact Hk).
    rewrite sendMessage_no_credential_run by exact Hn.
    rewrite getMockResponse_run. cbn [snd events record].
    rewrite fetches_app. cbn. apply app_nil_r.
Qed.

(** X2 for a service that had no key and is given one. *)
Lemma updateApiKey_takes_effect_witness :
  fetches (events (snd (ChatGPT.sendMessage
                          (updateApiKey (createChatGPTService Examples.noEnv) "sk-new")
                          "Hello" None Examples.online Examples.start)))
  = [ {| req_url := "https://api.openai.com/v1/chat/completions";
         req_method := "POST";
         req_headers := [("Content-Type", "application/json");
                         ("Authorization", "Bearer sk-new")];
         req_body :=
           JSON_stringify Examples.print
             (request_value (buildRequestBody (createChatGPTService Examples.noEnv)
                               "Hello" None)) |} ].
Proof.
  refine (proj1 (updateApiKey_takes_effect Examples.online
                   (createChatGPTService Examples.noEnv) "sk-new" "Hello" None
                   Examples.start) _).
  discriminate.
Defined.

(** X3.  A body that parses but whose [choices] is missing or otherwise
    falsy (absent, [null], [false], [0], the empty string) is a failure
    like an empty array: ['No response from ChatGPT API'] is logged and a
    placeholder is returned. *)
Theorem sendMessage_without_choices :
  forall (h : Host) (this : ChatGPTService) (message : string)
         (options : option Options) (w : World)
         (response : HttpResponse) (body : string) (data choices : value),
    random_in_unit h ->
    noApiKey this = false ->
    upstream h (upstreamRequest h this message options) = Return response ->
    ok response = true ->
    res_text response = Return body ->
    JSON_parse h body = Return data ->
    get data "choices" = Return choices ->
    truthy choices = false ->
    exists t,
      ChatGPT.sendMessage this message options h w
      = (Return (Str t),
         mkWorld (events w ++ [Fetch (upstreamRequest h this message options);
                               ConsoleError "ChatGPT API error:"
                                 (mkError "Error" "No response from ChatGPT API")])
                 (S (draws w)) (ticks w))
      /\ In t (mockResponses message).
Proof.
  intros h this message options w response body data choices
         Hr Hk Hup Hok Hbody Hparse Hc Ht.
  apply sendMessage_fallback; try assumption.
  unfold upstreamRequest in *.
  unfold tryCompletion, bind, host, JS.fetch, text, json, lift, throw, ret, parse_body.
  rewrite Hup, Hok, Hbody, Hparse, Hc, Ht. reflexivity.
Qed.

(** X3 for an upstream that answers [{}]. *)
Lemma sendMessage_without_choices_witness :
  exists t,
    ChatGPT.sendMessage Examples.service "Hello" None MoreExamples.emptyObjectHost
      Examples.start
    = (Return (Str t),
       mkWorld (events Examples.start
                ++ [Fetch (upstreamRequest MoreExamples.emptyObjectHost
                             Examples.service "Hello" None);
                    ConsoleError "ChatGPT API error:"
                      (mkError "Error" "No response from ChatGPT API")])
               (S (draws Examples.start)) (ticks Examples.start))
    /\ In t (mockResponses "Hello").
Proof.
  exact (sendMessage_without_choices MoreExamples.emptyObjectHost Examples.service
           "Hello" None Examples.start
           {| res_status := 200; res_text := Return "{}" |} "{}" (Obj []) Undefined
           (hostWith_random _) eq_refl eq_refl eq_refl eq_refl eq_refl eq_refl eq_refl).
Defined.




(** X5.  What [sendMessage] logs on a failed call names its cause: the
    error [fetch] rejected with; for a status that is no success, an error
    whose message is ['ChatGPT API error: '], the status in decimal,
    [' - '] and the text of the body; for a body that does not parse, the
    error of the parser.  In each case the events are the call and that one
    log entry. *)
Theorem sendMessage_logs_the_cause :
  forall (h : Host) (this : ChatGPTService) (message : string)
         (options : option Options) (w : World),
    noApiKey this = false ->
    let req := upstreamRequest h this message options in
    let after := events (snd (ChatGPT.sendMessage this message options h w)) in
    (forall e, upstream h req = Throw e ->
               after = (events w ++ [Fetch req; ConsoleError "ChatGPT API error:" e])%list)
    /\ (forall r t, upstream h req = Return r -> ok r = false ->
                    res_text r = Return t ->
                    after = (events w ++
                             [Fetch req;
                              ConsoleError "ChatGPT API error:"
                                (mkError "Error"
                                   ("ChatGPT API error: " ++ Z_toString 10 (res_status r)
                                    ++ " - " ++ t)%string)])%list)
    /\ (forall r t e, upstream h req = Return r -> ok r = true ->
                      res_text r = Return t -> JSON_parse h t = Throw e ->
                      after = (events w
                               ++ [Fetch req; ConsoleError "ChatGPT API error:" e])%list).
Proof.
  intros h this message options w Hk req after.
  assert (Hgen : forall e,
             tryCompletion this (buildRequestBody this message options) h w
             = (Throw e, record (Fetch req) w) ->
             after = (events w ++ [Fetch req; ConsoleError "ChatGPT API error:" e])%list).
  { intros e He. unfold after. rewrite sendMessage_upstream, He by assumption.
    rewrite getMockResponse_run. cbn [snd events record].
    rewrite <- app_assoc. reflexivity. }
  unfold req, upstreamRequest in *.
  repeat split.
  - intros e H. apply Hgen. apply tryCompletion_transport. exact H.
  - intros r t H Hok Ht. apply Hgen.
    unfold tryCompletion, bind, host, JS.fetch, text, json, lift, throw, ret.
    rewrite H, Hok, Ht. reflexivity.
  - intros r t e H Hok Ht Hp. apply Hgen.
    apply (tryCompletion_malformed h this _ w r e H Hok).
    rewrite Ht. exact Hp.
Qed.

(** X5 for an upstream that answers 503 with the text [overloaded]. *)
Lemma sendMessage_logs_the_cause_witness :
  events (snd (ChatGPT.sendMessage Examples.service "Hello" None
                 MoreExamples.unavailableHost Examples.start))
  = [Fetch (upstreamRequest MoreExamples.unavailableHost Examples.service "Hello" None);
     ConsoleError "ChatGPT API error:"
       (mkError "Error" "ChatGPT API error: 503 - overloaded")].
Proof.
  exact (proj1 (proj2 (sendMessage_logs_the_cause MoreExamples.unavailableHost
                         Examples.service "Hello" None Examples.start eq_refl))
           {| res_status := 503; res_text := Return "overloaded" |} "overloaded"
           eq_refl eq_refl eq_refl).
Defined.

(** ** Which keys count as a credential *)

Lemma append_assoc (a b c : string) : ((a ++ b) ++ c = a ++ b ++ c)%string.
Proof. induction a as [| x a IH]; cbn; [reflexivity | rewrite IH; reflexivity]. Qed.

Lemma bytes_of_app (a b : string) :
  bytes_of (a ++ b) = (bytes_of a ++ bytes_of b)%list.
Proof. induction a as [| c a IH]; cbn; [reflexivity | f_equal; exact IH]. Qed.

Lemma prefix_cons (a b : ascii) (s t : string) :
  prefix (String a s) (String b t) = if ascii_dec a b then prefix s t else false.
Proof. reflexivity. Qed.

Lemma prefix_split (w s : string) :
  prefix w s = true -> s = (w ++ drop (String.length w) s)%string.
Proof.
  revert s. induction w as [| a w IH]; intros s H.
  - reflexivity.
  - destruct s as [| b s]; simpl in H; [discriminate H |].
    destruct (ascii_dec a b) as [-> | _]; [| discriminate H].
    simpl. f_equal. apply IH. exact H.
Qed.

Lemma strip_one_split (ws : list string) (s r : string) :
  strip_one ws s = Some r -> exists w, In w ws /\ s = (w ++ r)%string.
Proof.
  induction ws as [| w ws IH]; cbn; [discriminate |].
  destruct (prefix w s) eqn:Hp.
  - intros [= <-]. exists w. split; [left; reflexivity | apply prefix_split; exact Hp].
  - intros H. destruct (IH H) as [w' [Hin Hs]]. exists w'. split; [right |]; assumption.
Qed.

(** What [strip_fuel] removes is made of bytes of white space. *)
Lemma strip_fuel_split (ws : list string) (fuel : nat) :
  (forall w, In w ws -> Forall (fun c => blank_byte c = true) (bytes_of w)) ->
  forall s, exists p,
    s = (p ++ strip_fuel fuel ws s)%string
    /\ Forall (fun c => blank_byte c = true) (bytes_of p).
Proof.
  intros Hws. induction fuel as [| f IH]; intros s; cbn [strip_fuel].
  - exists "". split; [reflexivity | constructor].
  - destruct (strip_one ws s) as [r |] eqn:Hone.
    + destruct (strip_one_split ws s r Hone) as [w [Hin Hs]].
      destruct (IH r) as [p [Hr Hp]].
      exists (w ++ p)%string. split.
      * rewrite append_assoc, <- Hr. exact Hs.
      * rewrite bytes_of_app. apply Forall_app. split; [apply Hws; exact Hin | exact Hp].
    + exists "". split; [reflexivity | constructor].
Qed.

Lemma strip_fuel_keeps (ws : list string) (fuel : nat) (s : string) (c : ascii) :
  (forall w, In w ws -> Forall (fun c => blank_byte c = true) (bytes_of w)) ->
  In c (bytes_of s) -> blank_byte c = false ->
  In c (bytes_of (strip_fuel fuel ws s)).
Proof.
  intros Hws Hin Hc.
  destruct (strip_fuel_split ws fuel Hws s) as [p [Hs Hp]].
  rewrite Hs, bytes_of_app in Hin. apply in_app_or in Hin.
  destruct Hin as [Hin | Hin]; [| exact Hin].
  rewrite Forall_forall in Hp. rewrite (Hp c Hin) in Hc. discriminate Hc.
Qed.

Lemma bytes_of_reverse_onto (s acc : string) :
  bytes_of (reverse_onto s acc) = (rev (bytes_of s) ++ bytes_of acc)%list.
Proof.
  revert acc. induction s as [| c s IH]; intros acc; cbn [reverse_onto].
  - reflexivity.
  - rewrite IH. cbn. rewrite <- app_assoc. reflexivity.
Qed.

Lemma bytes_of_reverse (s : string) : bytes_of (reverse s) = rev (bytes_of s).
Proof. unfold reverse. rewrite bytes_of_reverse_onto. cbn. apply app_nil_r. Qed.

Lemma whiteSpace_bytes :
  forall w, In w whiteSpace -> Forall (fun c => blank_byte c = true) (bytes_of w).
Proof.
  apply Forall_forall. vm_compute. repeat (constructor; try reflexivity).
Qed.

Lemma reversed_whiteSpace_bytes :
  forall w, In w (map reverse whiteSpace) ->
            Forall (fun c => blank_byte c = true) (bytes_of w).
Proof.
  apply Forall_forall. vm_compute. repeat (constructor; try reflexivity).
Qed.

(** [trim] never removes a byte that is not part of white space. *)
Lemma trim_keeps (s : string) (c : ascii) :
  In c (bytes_of s) -> blank_byte c = false -> In c (bytes_of (trim s)).
Proof.
  intros Hin Hc. unfold trim, trimEnd, trimStart.
  rewrite bytes_of_reverse. apply -> in_rev.
  apply strip_fuel_keeps; [exact reversed_whiteSpace_bytes | | exact Hc].
  rewrite bytes_of_reverse. apply -> in_rev.
  apply strip_fuel_keeps; [exact whiteSpace_bytes | exact Hin | exact Hc].
Qed.

Lemma strip_ascii_blanks (s : string) :
  Forall (fun c => ascii_blank c = true) (bytes_of s) ->
  strip_fuel (String.length s) whiteSpace s = "".
Proof.
  induction s as [| c s IH]; intros H; [reflexivity |].
  inversion H as [| c' l Hc Hs]; subst.
  cbn [String.length strip_fuel].
  assert (Hone : strip_one whiteSpace (String c s) = Some s).
  { clear - Hc. destruct c as [[] [] [] [] [] [] [] []]; try discriminate Hc;
      destruct s; reflexivity. }
  rewrite Hone. apply IH. exact Hs.
Qed.

(** X6.  The test for a credential, [!this.apiKey || this.apiKey.trim()
    === ''], takes a key for configured as soon as it holds one ASCII
    character that is not a blank (one byte below 128 other than TAB, LF,
    VT, FF, CR and SPACE), wherever it stands, and takes a key made only of
    those six blanks, the empty key among them, for absent. *)
Theorem credential_detection :
  forall (this : ChatGPTService),
    (forall c, In c (bytes_of (apiKey this)) -> blank_byte c = false ->
               noApiKey this = false)
    /\ (Forall (fun c => ascii_blank c = true) (bytes_of (apiKey this)) ->
        noApiKey this = true).
Proof.
  intros this. split.
  - intros c Hin Hc. apply noApiKey_false_iff. intros Ht.
    pose proof (trim_keeps (apiKey this) c Hin Hc) as Hk.
    rewrite Ht in Hk. exact Hk.
  - intros H. apply noApiKey_blank. right.
    unfold trim, trimStart. rewrite (strip_ascii_blanks _ H). reflexivity.
Qed.

(** X6 for a key with blanks around it. *)
Lemma credential_detection_witness :
  noApiKey (updateApiKey Examples.service "  sk-live  ") = false.
Proof.
  refine (proj1 (credential_detection (updateApiKey Examples.service "  sk-live  "))
            "s"%char _ _).
  - cbn. auto.
  - reflexivity.
Defined.

(** ** The token cap read from the environment *)

Section Decimal.
Local Open Scope Z_scope.

Lemma digit_cases (d : Z) :
  0 <= d < 10 ->
  d = 0 \/ d = 1 \/ d = 2 \/ d = 3 \/ d = 4 \/ d = 5 \/ d = 6 \/ d = 7 \/ d = 8 \/ d = 9.
Proof. lia. Qed.

Lemma take_digits_digit (d : Z) (s : string) :
  0 <= d < 10 ->
  take_digits 10 (String (digit_char d) s)
  = (d :: fst (take_digits 10 s), snd (take_digits 10 s)).
Proof.
  intros Hd.
  destruct (digit_cases d Hd)
    as [-> | [-> | [-> | [-> | [-> | [-> | [-> | [-> | [-> | ->]]]]]]]]];
    cbn [take_digits]; cbv [digit_char digit_value]; cbn;
    destruct (take_digits 10 s); reflexivity.
Qed.

Lemma fold_digits (ds : list Z) (a : Z) :
  fold_left (fun acc d => acc * 10 + d) ds a
  = a * 10 ^ Z.of_nat (length ds) + value_of 10 ds.
Proof.
  unfold value_of. revert a. induction ds as [| d ds IH]; intros a.
  - cbn. lia.
  - cbn [fold_left length]. rewrite IH, (IH (0 * 10 + d)).
    rewrite Nat2Z.inj_succ, Z.pow_succ_r by lia. ring.
Qed.

Lemma value_of_cons (d : Z) (ds : list Z) :
  value_of 10 (d :: ds) = d * 10 ^ Z.of_nat (length ds) + value_of 10 ds.
Proof. unfold value_of at 1. cbn [fold_left]. rewrite fold_digits. ring. Qed.

(** The digits written in front of [acc] read back as [n], shifted over
    the digits of [acc]. *)
Lemma digits_fuel_decimal (f : nat) :
  forall (n : Z) (acc : string),
    0 <= n < 2 ^ Z.of_nat (S f) ->
    snd (take_digits 10 acc) = "" ->
    let s := digits_fuel (S f) 10 n acc in
    snd (take_digits 10 s) = ""
    /\ value_of 10 (fst (take_digits 10 s))
       = n * 10 ^ Z.of_nat (length (fst (take_digits 10 acc)))
         + value_of 10 (fst (take_digits 10 acc))
    /\ decimal_start s.
Proof.
  induction f as [| f IH]; intros n acc Hn Hacc; cbn zeta.
  - change (2 ^ Z.of_nat 1) with 2 in Hn.
    assert (Hd : 0 <= n mod 10 < 10) by (apply Z.mod_pos_bound; lia).
    cbn [digits_fuel].
    destruct (n / 10 =? 0); rewrite take_digits_digit by exact Hd; cbn [fst snd];
      (split; [exact Hacc |]);
      (split; [| exists (n mod 10), acc; split; [exact Hd | reflexivity]]);
      rewrite value_of_cons, Z.mod_small by lia; reflexivity.
  - assert (Hd : 0 <= n mod 10 < 10) by (apply Z.mod_pos_bound; lia).
    remember (S f) as f' eqn:Hf'.
    cbn [digits_fuel].
    destruct (Z.eqb_spec (n / 10) 0) as [Hq | Hq].
    + rewrite take_digits_digit by exact Hd. cbn [fst snd].
      split; [exact Hacc |].
      split; [| exists (n mod 10), acc; split; [exact Hd | reflexivity]].
      rewrite value_of_cons.
      assert (Hs : n mod 10 = n).
      { rewrite (Z.div_mod n 10) at 2 by lia. rewrite Hq. lia. }
      rewrite Hs. reflexivity.
    + subst f'.
      assert (Hn' : 0 <= n / 10 < 2 ^ Z.of_nat (S f)).
      { split; [apply Z.div_pos; lia |].
        apply Z.div_lt_upper_bound; [lia |].
        rewrite (Nat2Z.inj_succ (S f)), Z.pow_succ_r in Hn by lia. lia. }
      assert (Hacc' : snd (take_digits 10 (String (digit_char (n mod 10)) acc)) = "")
        by (rewrite take_digits_digit by exact Hd; exact Hacc).
      destruct (IH (n / 10) (String (digit_char (n mod 10)) acc) Hn' Hacc')
        as [H1 [H2 H3]].
      split; [exact H1 |]. split; [| exact H3].
      rewrite H2, take_digits_digit by exact Hd. cbn [fst].
      rewrite value_of_cons. cbn [length]. rewrite Nat2Z.inj_succ, Z.pow_succ_r by lia.
      rewrite (Z.div_mod n 10) at 3 by lia. ring.
Qed.

Lemma Z_toString_decimal (n : Z) :
  0 < n ->
  snd (take_digits 10 (Z_toString 10 n)) = ""
  /\ value_of 10 (fst (take_digits 10 (Z_toString 10 n))) = n
  /\ decimal_start (Z_toString 10 n).
Proof.
  intros Hn. unfold Z_toString.
  destruct (Z.ltb_spec n 0) as [Hneg | _]; [lia |].
  rewrite Z.abs_eq by lia.
  assert (Hb : 0 <= n < 2 ^ Z.of_nat (S (Z.to_nat (Z.log2 n)))).
  { split; [lia |]. rewrite Nat2Z.inj_succ, Z2Nat.id by apply Z.log2_nonneg.
    apply Z.log2_spec. exact Hn. }
  destruct (digits_fuel_decimal (Z.to_nat (Z.log2 n)) n "" Hb eq_refl) as [H1 [H2 H3]].
  split; [exact H1 |]. split; [| exact H3].
  rewrite H2. cbn. lia.
Qed.

(** [parseInt] reads the decimal numeral of a positive integer back. *)
Lemma parseInt_decimal (n : Z) :
  0 < n -> parseInt (Z_toString 10 n) = of_integer false n.
Proof.
  intros Hn. destruct (Z_toString_decimal n Hn) as [Hrest [Hval [d [r [Hd Hs]]]]].
  unfold parseInt.
  assert (Htrim : trimStart (Z_toString 10 n) = Z_toString 10 n).
  { rewrite Hs. unfold trimStart. cbn [String.length strip_fuel].
    assert (Hone : strip_one whiteSpace (String (digit_char d) r) = None)
      by (destruct (digit_cases d Hd)
            as [-> | [-> | [-> | [-> | [-> | [-> | [-> | [-> | [-> | ->]]]]]]]]];
          reflexivity).
    rewrite Hone. reflexivity. }
  rewrite Htrim.
  assert (Hsign : take_sign (Z_toString 10 n) = (false, Z_toString 10 n))
    by (rewrite Hs; destruct (digit_cases d Hd)
          as [-> | [-> | [-> | [-> | [-> | [-> | [-> | [-> | [-> | ->]]]]]]]]];
        reflexivity).
  rewrite Hsign.
  assert (Hhex : prefix "0x" (Z_toString 10 n) || prefix "0X" (Z_toString 10 n) = false).
  { rewrite Hs in Hrest |- *.
    destruct (digit_cases d Hd)
      as [-> | [-> | [-> | [-> | [-> | [-> | [-> | [-> | [-> | ->]]]]]]]]];
      try reflexivity.
    destruct r as [| c r]; [reflexivity |].
    rewrite take_digits_digit in Hrest by lia. cbn [snd] in Hrest.
    change (digit_char 0) with "0"%char.
    rewrite !prefix_cons.
    destruct (ascii_dec "0" "0") as [_ | Hne]; [| contradiction].
    destruct (ascii_dec "x" c) as [<- | _]; [discriminate Hrest |].
    destruct (ascii_dec "X" c) as [<- | _]; [discriminate Hrest |].
    reflexivity. }
  rewrite Hhex.
  destruct (fst (take_digits 10 (Z_toString 10 n))) as [| d0 ds] eqn:Hds.
  - rewrite Hs, take_digits_digit in Hds by exact Hd. discriminate Hds.
  - rewrite Hval. reflexivity.
Qed.

End Decimal.

Lemma positive_truthy (x : number) :
  positive_number x = true -> JSNumber.truthy x = true.
Proof. destruct x as [[] | [] | | [] m e]; intros H; try discriminate H; reflexivity. Qed.

Lemma digits_fuel_nonempty (fuel : nat) (radix n : Z) (acc : string) :
  acc <> "" -> digits_fuel fuel radix n acc <> "".
Proof.
  revert n acc. induction fuel as [| f IH]; intros n acc Hacc; cbn [digits_fuel].
  - exact Hacc.
  - destruct (n / radix =? 0)%Z; [discriminate |]. apply IH. discriminate.
Qed.

Lemma append_nonempty (a b : string) : b <> "" -> (a ++ b)%string <> "".
Proof. intros Hb. destruct a; cbn; [exact Hb | discriminate]. Qed.

Lemma Z_toString_nonempty (radix n : Z) : Z_toString radix n <> "".
Proof.
  unfold Z_toString.
  assert (H : digits_fuel (S (Z.to_nat (Z.log2 (Z.abs n)))) radix (Z.abs n) "" <> "").
  { cbn [digits_fuel]. destruct (Z.abs n / radix =? 0)%Z; [discriminate |].
    apply digits_fuel_nonempty. discriminate. }
  destruct (n <? 0)%Z; [apply append_nonempty |]; exact H.
Qed.

(** X7.  The factory honours [MAX_TOKENS]: when it holds the decimal
    numeral of a positive integer, the service's token cap is the Number of
    that integer (the nearest double), which is positive; the default of
    1000 plays no part. *)
Theorem factory_keeps_max_tokens :
  forall (n : Z) key model temperature environment origins,
    (0 < n)%Z ->
    maxTokens (createChatGPTService
                 {| OPENAI_API_KEY := key; OPENAI_MODEL := model;
                    MAX_TOKENS := Some (Z_toString 10 n); TEMPERATURE := temperature;
                    ENVIRONMENT := environment; ALLOWED_ORIGINS := origins |})
    = of_integer false n
    /\ positive_number (of_integer false n) = true.
Proof.
  intros n key model temperature environment origins Hn.
  split; [| apply of_integer_positive; exact Hn].
  cbn [createChatGPTService constructor maxTokens MAX_TOKENS config_maxTokens].
  assert (Hs : or_string (Some (Z_toString 10 n)) "1000" = Z_toString 10 n).
  { pose proof (Z_toString_nonempty 10 n) as Hne.
    destruct (Z_toString 10 n); [contradiction | reflexivity]. }
  rewrite Hs, parseInt_decimal by exact Hn.
  cbn [or_number].
  rewrite (positive_truthy _ (of_integer_positive n Hn)). reflexivity.
Qed.

(** X7 for [MAX_TOKENS="256"]. *)
Lemma factory_keeps_max_tokens_witness :
  maxTokens (createChatGPTService
               {| OPENAI_API_KEY := Some "sk-test"; OPENAI_MODEL := None;
                  MAX_TOKENS := Some "256"; TEMPERATURE := None;
                  ENVIRONMENT := None; ALLOWED_ORIGINS := None |})
  = of_integer false 256
  /\ positive_number (of_integer false 256) = true.
Proof.
  exact (factory_keeps_max_tokens 256 (Some "sk-test") None None None None eq_refl).
Defined.

(** ** The routes of the gateway *)

Lemma stringify_one (p : number -> string) (k1 v1 : string) :
  JSON_stringify p (Obj [(k1, Str v1)])
  = Some ("{" ++ quote k1 ++ ":" ++ quote v1 ++ "}").
Proof.
  cbn [JSON_stringify flat_map snd fst app String.concat].
  rewrite !append_assoc. reflexivity.
Qed.

Lemma stringify_two (p : number -> string) (k1 v1 k2 v2 : string) :
  JSON_stringify p (Obj [(k1, Str v1); (k2, Str v2)])
  = Some ("{" ++ quote k1 ++ ":" ++ quote v1 ++ ","
          ++ quote k2 ++ ":" ++ quote v2 ++ "}").
Proof.
  cbn [JSON_stringify flat_map snd fst app String.concat].
  rewrite !append_assoc. reflexivity.
Qed.

Lemma stringify_three (p : number -> string) (k1 v1 k2 v2 k3 v3 : string) :
  JSON_stringify p (Obj [(k1, Str v1); (k2, Str v2); (k3, Str v3)])
  = Some ("{" ++ quote k1 ++ ":" ++ quote v1 ++ ","
          ++ quote k2 ++ ":" ++ quote v2 ++ ","
          ++ quote k3 ++ ":" ++ quote v3 ++ "}").
Proof.
  cbn [JSON_stringify flat_map snd fst app String.concat].
  rewrite !append_assoc. reflexivity.
Qed.

Lemma not_options (request : Request) :
  method request <> "OPTIONS" -> handleCORS request = None.
Proof.
  intros H. unfold handleCORS.
  destruct (String.eqb_spec (method request) "OPTIONS"); [contradiction | reflexivity].
Qed.

(** X8.  [/health] answers every method but OPTIONS with status 200 and
    the JSON text of [status], [timestamp] and [version], the timestamp
    being the clock reading in ISO form; it reads the clock once and does
    nothing else, whatever the environment, the body and the engine. *)
Theorem health_probe :
  forall (graphql : Engine) (request : Request) (env : Env) (h : Host) (w : World),
    method request <> "OPTIONS" ->
    pathname (url request) = "/health" ->
    Worker.fetch graphql request env h w
    = (Return {| status := 200;
                 headers := jsonHeaders;
                 response_body :=
                   Some ("{" ++ quote "status" ++ ":" ++ quote "healthy" ++ ","
                         ++ quote "timestamp" ++ ":"
                         ++ quote (Date_toISOString h (Date_now h (ticks w))) ++ ","
                         ++ quote "version" ++ ":" ++ quote "1.0.0" ++ "}") |},
       mkWorld (events w) (draws w) (S (ticks w))).
Proof.
  intros graphql request env h w Hm Hp.
  unfold Worker.fetch. rewrite (not_options request Hm), Hp.
  cbn [String.eqb Ascii.eqb Bool.eqb].
  cbv [bind ret stringify host Schema.isoNow now].
  rewrite stringify_three. reflexivity.
Qed.

(** X8 for [GET /health]. *)
Lemma health_probe_witness :
  Worker.fetch MoreExamples.failingEngine Examples.healthRequest Examples.noEnv
    Examples.offline Examples.start
  = (Return {| status := 200;
               headers := jsonHeaders;
               response_body :=
                 Some ("{" ++ quote "status" ++ ":" ++ quote "healthy" ++ ","
                       ++ quote "timestamp" ++ ":" ++ quote "2024-01-01T00:00:00.000Z"
                       ++ "," ++ quote "version" ++ ":" ++ quote "1.0.0" ++ "}") |},
     mkWorld [] 0 1).
Proof.
  refine (health_probe MoreExamples.failingEngine Examples.healthRequest Examples.noEnv
            Examples.offline Examples.start _ eq_refl).
  discriminate.
Defined.

(** X9.  Any path other than [/health], [/graphql], [/playground] and [/]
    is answered, for every method but OPTIONS, with status 404 and the
    fixed JSON text naming the endpoints; nothing is read, logged or
    executed. *)
Theorem unknown_path_is_not_found :
  forall (graphql : Engine) (request : Request) (env : Env) (h : Host) (w : World),
    method request <> "OPTIONS" ->
    pathname (url request) <> "/health" ->
    pathname (url request) <> "/graphql" ->
    pathname (url request) <> "/playground" ->
    pathname (url request) <> "/" ->
    Worker.fetch graphql request env h w
    = (Return {| status := 404;
                 headers := jsonHeaders;
                 response_body :=
                   Some ("{" ++ quote "error" ++ ":" ++ quote "Not Found" ++ ","
                         ++ quote "message" ++ ":"
                         ++ quote "Available endpoints: /, /graphql, /health" ++ "}") |},
       w).
Proof.
  intros graphql request env h w Hm H1 H2 H3 H4.
  unfold Worker.fetch. rewrite (not_options request Hm).
  apply String.eqb_neq in H1, H2, H3, H4. rewrite H1, H2, H3, H4.
  cbv [orb bind ret stringify host]. rewrite stringify_two. reflexivity.
Qed.

(** X9 for [GET /nowhere]. *)
Lemma unknown_path_is_not_found_witness :
  Worker.fetch MoreExamples.failingEngine MoreExamples.unknownRequest Examples.noEnv
    Examples.offline Examples.start
  = (Return {| status := 404;
               headers := jsonHeaders;
               response_body :=
                 Some ("{" ++ quote "error" ++ ":" ++ quote "Not Found" ++ ","
                       ++ quote "message" ++ ":"
                       ++ quote "Available endpoints: /, /graphql, /health" ++ "}") |},
     Examples.start).
Proof.
  refine (unknown_path_is_not_found MoreExamples.failingEngine
            MoreExamples.unknownRequest Examples.noEnv Examples.offline Examples.start
            _ _ _ _ _); discriminate.
Defined.

(** X10.  [/] and [/playground] answer every method but OPTIONS with
    status 200, content type [text/html] and the static page; nothing is
    read, logged or executed. *)
Theorem playground_page :
  forall (graphql : Engine) (request : Request) (env : Env) (h : Host) (w : World),
    method request <> "OPTIONS" ->
    pathname (url request) = "/" \/ pathname (url request) = "/playground" ->
    Worker.fetch graphql request env h w
    = (Return {| status := 200;
                 headers := [("Content-Type", "text/html");
                             ("Access-Control-Allow-Origin", "*");
                             ("Access-Control-Allow-Methods", "GET, POST, OPTIONS");
                             ("Access-Control-Allow-Headers",
                              "Content-Type, Authorization")];
                 response_body := Some playgroundHTML |},
       w).
Proof.
  intros graphql request env h w Hm Hp.
  unfold Worker.fetch. rewrite (not_options request Hm).
  destruct Hp as [-> | ->]; reflexivity.
Qed.

(** X10 for [GET /]. *)
Lemma playground_page_witness :
  Worker.fetch MoreExamples.failingEngine MoreExamples.rootRequest Examples.noEnv
    Examples.offline Examples.start
  = (Return {| status := 200;
               headers := [("Content-Type", "text/html");
                           ("Access-Control-Allow-Origin", "*");
                           ("Access-Control-Allow-Methods", "GET, POST, OPTIONS");
                           ("Access-Control-Allow-Headers",
                            "Content-Type, Authorization")];
               response_body := Some playgroundHTML |},
     Examples.start).
Proof.
  refine (playground_page MoreExamples.failingEngine MoreExamples.rootRequest
            Examples.noEnv Examples.offline Examples.start _ (or_introl eq_refl)).
  discriminate.
Defined.

(** ** The GraphQL endpoint *)

Lemma parse_malformed (h : Host) (request : Request) (w : World) :
  malformed h request ->
  exists g, parseGraphQLRequest request h w = (Return g, w) /\ truthy g = false.
Proof.
  intros Hm. unfold parseGraphQLRequest.
  destruct Hm as [Hp Hg | Hg Hq | Hp Hj Hq | e Hp Hj Hb | v Hp Hj Hb Hv].
  - apply String.eqb_neq in Hp, Hg. rewrite Hp, Hg. exists Null. split; reflexivity.
  - rewrite Hg. cbn [String.eqb Ascii.eqb Bool.eqb].
    destruct (searchParams_get "query" (searchParams (url request))) as [[| c q] |];
      try discriminate Hq; exists Null; split; reflexivity.
  - rewrite Hp, Hj, Hq. exists Null. split; reflexivity.
  - rewrite Hp, Hj. cbn [String.eqb Ascii.eqb Bool.eqb]. cbv [try_catch json].
    rewrite Hb. exists Null. split; reflexivity.
  - rewrite Hp, Hj. cbn [String.eqb Ascii.eqb Bool.eqb]. cbv [try_catch json].
    rewrite Hb. exists v. split; [reflexivity | exact Hv].
Qed.

(** [parseGraphQLRequest] turns the request down, throws, or decodes it;
    it never changes the world. *)
Lemma parse_cases (h : Host) (request : Request) (w : World) :
  malformed h request
  \/ (exists e, parseGraphQLRequest request h w = (Throw e, w))
  \/ (exists g, parseGraphQLRequest request h w = (Return g, w) /\ truthy g = true).
Proof.
  unfold parseGraphQLRequest.
  destruct (String.eqb_spec (method request) "POST") as [Hp | Hp].
  - destruct (includes_opt (content_type request) "application/json") eqn:Hj.
    + cbv [try_catch json].
      destruct (parse_body h (body request)) as [v | e] eqn:Hb.
      * destruct (truthy v) eqn:Hv.
        -- right. right. exists v. split; [reflexivity | exact Hv].
        -- left. apply (post_falsy h request v); assumption.
      * left. apply (post_unparseable h request e); assumption.
    + destruct (includes_opt (content_type request) "application/graphql") eqn:Hq.
      * cbv [bind lift ret]. destruct (body request) as [t | e].
        -- right. right. eexists. split; reflexivity.
        -- right. left. eexists. reflexivity.
      * left. apply post_other_type; assumption.
  - destruct (String.eqb_spec (method request) "GET") as [Hg | Hg].
    + destruct (searchParams_get "query" (searchParams (url request))) as [q |] eqn:Hq.
      * destruct (truthy (Str q)) eqn:Hqt.
        -- cbv [bind json ret parse_body].
           destruct (searchParams_get "variables" (searchParams (url request))) as [v |].
           ++ destruct (truthy (Str v)).
              ** destruct (JSON_parse h v) as [x | e].
                 --- right. right. eexists. split; reflexivity.
                 --- right. left. eexists. reflexivity.
              ** right. right. eexists. split; reflexivity.
           ++ right. right. eexists. split; reflexivity.
        -- left. apply get_without_query; [assumption |]. rewrite Hq. exact Hqt.
      * left. apply get_without_query; [assumption |]. rewrite Hq. reflexivity.
    + left. apply other_method; assumption.
Qed.

(** The [/graphql] route, by the outcome of the decoding and of the engine. *)
Lemma graphql_route (graphql : Engine) (request : Request) (env : Env)
    (h : Host) (w : World) :
  method request <> "OPTIONS" ->
  pathname (url request) = "/graphql" ->
  Worker.fetch graphql request env h w
  = match parseGraphQLRequest request h w with
    | (Throw e, w1) => (Throw e, w1)
    | (Return g, w1) =>
        if truthy g then
          match graphql (engineArgs request env g) h w1 with
          | (Return result, w2) =>
              (Return {| status := 200; headers := jsonHeaders;
                         response_body := JSON_stringify (Number_toString h) result |},
               w2)
          | (Throw e, w2) =>
              (Return {| status := 500; headers := jsonHeaders;
                         response_body :=
                           Some ("{" ++ quote "error" ++ ":"
                                 ++ quote "Internal server error"
                                 ++ "," ++ quote "message" ++ ":"
                                 ++ quote (err_message e) ++ "}") |},
               record (ConsoleError "GraphQL execution error:" e) w2)
          end
        else (Return invalidRequest, w1)
    end.
Proof.
  intros Hm Hp. unfold Worker.fetch. rewrite (not_options request Hm), Hp.
  cbn [String.eqb Ascii.eqb Bool.eqb].
  unfold bind at 1.
  destruct (parseGraphQLRequest request h w) as [[g | e] w1]; [| reflexivity].
  destruct (truthy g) eqn:Hg; cbn [negb];
    [| cbv [bind ret stringify host]; rewrite stringify_one; reflexivity].
  unfold engineArgs, field.
  cbv [try_catch bind lift ret stringify host console_error emit].
  destruct g; try discriminate Hg; cbn [get];
    match goal with
    | |- context [graphql ?a h w1] => destruct (graphql a h w1) as [[r | e] w2]
    end; try rewrite stringify_two; reflexivity.
Qed.

(** X11.  On [/graphql] the handler answers 400 exactly for the malformed
    requests: a method other than GET and POST (OPTIONS apart); a GET with
    no query or an empty one; a POST whose content type contains neither
    [application/json] nor [application/graphql]; a POST of JSON whose body
    cannot be read or parsed, or parses to a falsy value.  For these the
    response is the fixed text [Invalid GraphQL request], the engine is not
    called and nothing is logged; no other request is answered 400. *)
Theorem graphql_rejects_exactly_the_malformed :
  forall (graphql : Engine) (request : Request) (env : Env) (h : Host) (w : World),
    method request <> "OPTIONS" ->
    pathname (url request) = "/graphql" ->
    (malformed h request ->
     Worker.fetch graphql request env h w = (Return invalidRequest, w))
    /\ (forall response w',
           Worker.fetch graphql request env h w = (Return response, w') ->
           status response = 400%Z ->
           malformed h request).
Proof.
  intros graphql request env h w Hm Hp.
  rewrite (graphql_route graphql request env h w Hm Hp). split.
  - intros Hbad. destruct (parse_malformed h request w Hbad) as [g [Hg Ht]].
    rewrite Hg, Ht. reflexivity.
  - intros response w' Hrun Hs.
    destruct (parse_cases h request w) as [Hbad | [[e He] | [g [Hg Ht]]]].
    + exact Hbad.
    + rewrite He in Hrun. discriminate Hrun.
    + rewrite Hg, Ht in Hrun.
      destruct (graphql (engineArgs request env g) h w) as [[r | e] w2];
        inversion Hrun; subst; discriminate Hs.
Qed.

(** X11 for [GET /graphql] with no query. *)
Lemma graphql_rejects_exactly_the_malformed_witness :
  Worker.fetch MoreExamples.failingEngine MoreExamples.getWithoutQuery Examples.noEnv
    Examples.offline Examples.start
  = (Return invalidRequest, Examples.start).
Proof.
  refine (proj1 (graphql_rejects_exactly_the_malformed MoreExamples.failingEngine
                   MoreExamples.getWithoutQuery Examples.noEnv Examples.offline
                   Examples.start _ eq_refl)
            (get_without_query Examples.offline MoreExamples.getWithoutQuery
               eq_refl eq_refl)).
  discriminate.
Defined.

(** X12.  For a decoded request the status follows the engine: when it
    returns, 200 with the JSON text of its result; when it throws, 500 with
    the JSON text of [error: 'Internal server error'] and the message of
    the exception, which is logged once with [console.error]. *)
Theorem graphql_engine_outcome :
  forall (graphql : Engine) (request : Request) (env : Env) (h : Host)
         (w w1 : World) (g : value),
    method request <> "OPTIONS" ->
    pathname (url request) = "/graphql" ->
    parseGraphQLRequest request h w = (Return g, w1) ->
    truthy g = true ->
    (forall result w2,
        graphql (engineArgs request env g) h w1 = (Return result, w2) ->
        Worker.fetch graphql request env h w
        = (Return {| status := 200; headers := jsonHeaders;
                     response_body := JSON_stringify (Number_toString h) result |}, w2))
    /\ (forall e w2,
           graphql (engineArgs request env g) h w1 = (Throw e, w2) ->
           Worker.fetch graphql request env h w
           = (Return {| status := 500; headers := jsonHeaders;
                        response_body :=
                          Some ("{" ++ quote "error" ++ ":"
                                ++ quote "Internal server error"
                                ++ "," ++ quote "message" ++ ":"
                                ++ quote (err_message e) ++ "}") |},
              record (ConsoleError "GraphQL execution error:" e) w2)).
Proof.
  intros graphql request env h w w1 g Hm Hp Hg Ht.
  rewrite (graphql_route graphql request env h w Hm Hp), Hg, Ht.
  split; intros ? ? H; rewrite H; reflexivity.
Qed.

(** X12 for an engine that throws on [GET /graphql?query={hello}]. *)
Lemma graphql_engine_outcome_witness :
  Worker.fetch MoreExamples.failingEngine MoreExamples.getHello Examples.noEnv
    Examples.offline Examples.start
  = (Return {| status := 500; headers := jsonHeaders;
               response_body :=
                 Some ("{" ++ quote "error" ++ ":" ++ quote "Internal server error"
                       ++ "," ++ quote "message" ++ ":"
                       ++ quote "schema is broken" ++ "}") |},
     record (ConsoleError "GraphQL execution error:"
               (mkError "Error" "schema is broken")) Examples.start).
Proof.
  refine (proj2 (graphql_engine_outcome MoreExamples.failingEngine MoreExamples.getHello
                   Examples.noEnv Examples.offline Examples.start Examples.start
                   (Obj [("query", Str "{hello}"); ("variables", Undefined);
                         ("operationName", Undefined)])
                   _ eq_refl eq_refl eq_refl)
            (mkError "Error" "schema is broken") Examples.start eq_refl).
  discriminate.
Defined.

(** X13.  A POST whose content type contains [application/graphql] (and
    not [application/json]) hands the text of the body to the engine as
    the query, with no variables and no operation name, even when the text
    is empty; the result of the engine is returned with status 200. *)
Theorem post_graphql_text_is_the_query :
  forall (graphql : Engine) (request : Request) (env : Env) (h : Host) (w w' : World)
         (text : string) (result : value),
    method request = "POST" ->
    pathname (url request) = "/graphql" ->
    includes_opt (content_type request) "application/json" = false ->
    includes_opt (content_type request) "application/graphql" = true ->
    body request = Return text ->
    graphql {| args_schema := Schema.schema;
               source := Str text;
               variableValues := Undefined;
               operationName := Undefined;
               contextValue := {| Schema.chatService := createChatGPTService env;
                                  Schema.env := env;
                                  Schema.request := request |} |} h w
    = (Return result, w') ->
    Worker.fetch graphql request env h w
    = (Return {| status := 200; headers := jsonHeaders;
                 response_body := JSON_stringify (Number_toString h) result |}, w').
Proof.
  intros graphql request env h w w' text result Hm Hp Hj Hg Hb Hrun.
  assert (Hparse : parseGraphQLRequest request h w
                   = (Return (Obj [("query", Str text)]), w)).
  { unfold parseGraphQLRequest. rewrite Hm, Hj, Hg. cbn [String.eqb Ascii.eqb Bool.eqb].
    cbv [bind lift ret]. rewrite Hb. reflexivity. }
  assert (Ho : method request <> "OPTIONS") by (rewrite Hm; discriminate).
  rewrite (graphql_route graphql request env h w Ho Hp), Hparse.
  cbn [truthy]. unfold engineArgs, field. cbn [get lookup String.eqb Ascii.eqb Bool.eqb].
  rewrite Hrun. reflexivity.
Qed.

(** X13 for the body [{ hello }]. *)
Lemma post_graphql_text_is_the_query_witness :
  Worker.fetch Examples.idleEngine MoreExamples.postGraphqlText Examples.noEnv
    Examples.offline Examples.start
  = (Return {| status := 200; headers := jsonHeaders;
               response_body := JSON_stringify Examples.print (Obj [("data", Obj [])]) |},
     Examples.start).
Proof.
  exact (post_graphql_text_is_the_query Examples.idleEngine MoreExamples.postGraphqlText
           Examples.noEnv Examples.offline Examples.start Examples.start
           "{ hello }" (Obj [("data", Obj [])])
           eq_refl eq_refl eq_refl eq_refl eq_refl eq_refl).
Defined.

(** X14.  A GET with a query and with no [variables] parameter, or an
    empty one, is executed with undefined variables: an empty [variables]
    is not parsed, so it neither fails nor is turned down. *)
Theorem get_without_variables :
  forall (graphql : Engine) (request : Request) (env : Env) (h : Host) (w w' : World)
         (query : string) (result : value),
    method request = "GET" ->
    pathname (url request) = "/graphql" ->
    searchParams_get "query" (searchParams (url request)) = Some query ->
    query <> "" ->
    truthy_opt (searchParams_get "variables" (searchParams (url request))) = false ->
    graphql {| args_schema := Schema.schema;
               source := Str query;
               variableValues := Undefined;
               operationName :=
                 or_undefined (searchParams_get "operationName"
                                 (searchParams (url request)));
               contextValue := {| Schema.chatService := createChatGPTService env;
                                  Schema.env := env;
                                  Schema.request := request |} |} h w
    = (Return result, w') ->
    Worker.fetch graphql request env h w
    = (Return {| status := 200; headers := jsonHeaders;
                 response_body := JSON_stringify (Number_toString h) result |}, w').
Proof.
  intros graphql request env h w w' query result Hm Hp Hq Hqn Hv Hrun.
  assert (Hparse : parseGraphQLRequest request h w
                   = (Return (Obj [("query", Str query);
                                   ("variables", Undefined);
                                   ("operationName",
                                    or_undefined (searchParams_get "operationName"
                                                    (searchParams (url request))))]), w)).
  { unfold parseGraphQLRequest. rewrite Hm, Hq. cbn [String.eqb Ascii.eqb Bool.eqb].
    assert (Tq : truthy (Str query) = true)
      by (destruct query; [contradiction | reflexivity]).
    rewrite Tq.
    destruct (searchParams_get "variables" (searchParams (url request))) as [[| c v] |];
      try discriminate Hv; reflexivity. }
  assert (Ho : method request <> "OPTIONS") by (rewrite Hm; discriminate).
  rewrite (graphql_route graphql request env h w Ho Hp), Hparse.
  cbn [truthy]. unfold engineArgs, field. cbn [get lookup String.eqb Ascii.eqb Bool.eqb].
  rewrite Hrun. reflexivity.
Qed.

(** X14 for [GET /graphql?query={hello}]. *)
Lemma get_without_variables_witness :
  Worker.fetch Examples.idleEngine MoreExamples.getHello Examples.noEnv
    Examples.offline Examples.start
  = (Return {| status := 200; headers := jsonHeaders;
               response_body := JSON_stringify Examples.print (Obj [("data", Obj [])]) |},
     Examples.start).
Proof.
  refine (get_without_variables Examples.idleEngine MoreExamples.getHello
            Examples.noEnv Examples.offline Examples.start Examples.start
            "{hello}" (Obj [("data", Obj [])])
            eq_refl eq_refl eq_refl _ eq_refl eq_refl).
  discriminate.
Defined.

(** The lemma [get_variables_reach_the_engine] at
    [GET /graphql?query={hello}&variables={}]. *)
Lemma get_variables_reach_the_engine_witness :
  Worker.fetch Examples.idleEngine MoreExamples.getWithVariables Examples.noEnv
    Examples.offline Examples.start
  = (Return {| status := 200;
               headers := spread [("Content-Type", "application/json")] corsHeaders;
               response_body := JSON_stringify Examples.print (Obj [("data", Obj [])]) |},
     Examples.start).
Proof.
  refine (get_variables_reach_the_engine Examples.idleEngine
            MoreExamples.getWithVariables Examples.noEnv Examples.offline
            Examples.start Examples.start "{hello}" "{}" (Obj [])
            (Obj [("data", Obj [])])
            eq_refl eq_refl eq_refl _ eq_refl _ eq_refl eq_refl); discriminate.
Defined.

(** X15.  A POST of JSON whose body parses to an object hands the engine
    the object's own [query], [variables] and [operationName], each
    undefined when the object lacks it, with no check of their types; the
    result of the engine is returned with status 200. *)
Theorem post_json_fields_reach_the_engine :
  forall (graphql : Engine) (request : Request) (env : Env) (h : Host) (w w' : World)
         (text : string) (props : list (string * value)) (result : value),
    method request = "POST" ->
    pathname (url request) = "/graphql" ->
    includes_opt (content_type request) "application/json" = true ->
    body request = Return text ->
    JSON_parse h text = Return (Obj props) ->
    graphql {| args_schema := Schema.schema;
               source := match lookup "query" props with
                         | Some q => q
                         | None => Undefined
                         end;
               variableValues := match lookup "variables" props with
                                 | Some v => v
                                 | None => Undefined
                                 end;
               operationName := match lookup "operationName" props with
                                | Some o => o
                                | None => Undefined
                                end;
               contextValue := {| Schema.chatService := createChatGPTService env;
                                  Schema.env := env;
                                  Schema.request := request |} |} h w
    = (Return result, w') ->
    Worker.fetch graphql request env h w
    = (Return {| status := 200; headers := jsonHeaders;
                 response_body := JSON_stringify (Number_toString h) result |}, w').
Proof.
  intros graphql request env h w w' text props result Hm Hp Hj Hb Hparse Hrun.
  assert (Hdec : parseGraphQLRequest request h w = (Return (Obj props), w)).
  { unfold parseGraphQLRequest. rewrite Hm, Hj. cbn [String.eqb Ascii.eqb Bool.eqb].
    cbv [try_catch json parse_body]. rewrite Hb, Hparse. reflexivity. }
  assert (Ho : method request <> "OPTIONS") by (rewrite Hm; discriminate).
  rewrite (graphql_route graphql request env h w Ho Hp), Hdec.
  cbn [truthy]. unfold engineArgs, field. cbn [get].
  rewrite Hrun. reflexivity.
Qed.

(** X15 for the body [{}]. *)
Lemma post_json_fields_reach_the_engine_witness :
  Worker.fetch Examples.idleEngine Examples.postWithoutQuery Examples.noEnv
    Examples.offline Examples.start
  = (Return {| status := 200; headers := jsonHeaders;
               response_body := JSON_stringify Examples.print (Obj [("data", Obj [])]) |},
     Examples.start).
Proof.
  exact (post_json_fields_reach_the_engine Examples.idleEngine Examples.postWithoutQuery
           Examples.noEnv Examples.offline Examples.start Examples.start
           "{}" [] (Obj [("data", Obj [])])
           eq_refl eq_refl eq_refl eq_refl eq_refl eq_refl).
Defined.

(** ** The resolvers *)

(** X16.  The [chat] query never calls the network and never throws,
    with or without a credential: it answers ['Echo: '] followed by the
    message, the model ['gpt-3.5-turbo'], the clock reading in ISO form and
    an identifier that is never empty; it makes one random draw and reads
    the clock twice. *)
Theorem chat_echoes_offline :
  forall (message : string) (context : Schema.Context) (h : Host) (w : World),
    exists response,
      Schema.chat message context h w
      = (Return response, mkWorld (events w) (S (draws w)) (S (S (ticks w))))
      /\ Schema.message response = Str ("Echo: " ++ message)
      /\ Schema.model response = "gpt-3.5-turbo"
      /\ Schema.timestamp response = Date_toISOString h (Date_now h (S (ticks w)))
      /\ Schema.id response <> "".
Proof.
  intros message context h w. eexists. split; [reflexivity |].
  cbn [Schema.message Schema.model Schema.timestamp Schema.id].
  repeat split. cbn [ticks]. apply append_nonempty. apply Z_toString_nonempty.
Qed.

(** The mutation returns what the client returned, with the requested model. *)
Lemma resolver_run (input : Schema.MessageInput) (context : Schema.Context)
    (h : Host) (w : World) :
  exists v w1,
    ChatGPT.sendMessage (Schema.chatService context) (Schema.input_message input)
      (Some {| conversationId := Schema.input_conversationId input;
               opt_model := Some (or_string (Schema.input_model input) "gpt-3.5-turbo");
               systemPrompt := None |}) h w
    = (Return v, w1)
    /\ exists response,
        Schema.sendMessage input context h w
        = (Return response, mkWorld (events w1) (S (draws w1)) (S (S (ticks w1))))
        /\ Schema.message response = v
        /\ Schema.model response = given_or (Schema.input_model input) "gpt-3.5-turbo".
Proof.
  destruct (sendMessage_total (Schema.chatService context) (Schema.input_message input)
              (Some {| conversationId := Schema.input_conversationId input;
                       opt_model :=
                         Some (or_string (Schema.input_model input) "gpt-3.5-turbo");
                       systemPrompt := None |}) h w) as [v [w1 Hrun]].
  exists v, w1. split; [exact Hrun |].
  unfold Schema.sendMessage, try_catch. unfold bind at 1. rewrite Hrun.
  eexists. split; [reflexivity |]. split; [reflexivity | apply or_string_given].
Qed.

(** X17.  The [sendMessage] mutation never throws, for any service in its
    context: its [catch] is never entered.  Its [message] is the reply of
    the client: without a credential one of the four placeholders for the
    input message, with nothing sent; with a credential and a successful
    completion the content of the first choice as it stands, after the one
    request, which names the requested model. *)
Theorem mutation_carries_the_reply :
  forall (input : Schema.MessageInput) (context : Schema.Context) (h : Host) (w : World),
    random_in_unit h ->
    let service := Schema.chatService context in
    let request :=
      completionCall h service
        {| model := given_or (Schema.input_model input) "gpt-3.5-turbo";
           messages := [ {| role := user; content := Schema.input_message input |} ];
           max_tokens := Some (maxTokens service);
           temperature_ := Some (temperature service);
           stream := None |} in
    (exists response w', Schema.sendMessage input context h w = (Return response, w'))
    /\ (noApiKey service = true ->
        exists response w' t,
          Schema.sendMessage input context h w = (Return response, w')
          /\ Schema.message response = Str t
          /\ In t (mockResponses (Schema.input_message input))
          /\ fetches (events w') = fetches (events w))
    /\ (forall (r : HttpResponse) (body : string) (data choice msg answer : value)
               (others : list value),
           noApiKey service = false ->
           upstream h request = Return r ->
           ok r = true ->
           res_text r = Return body ->
           JSON_parse h body = Return data ->
           get data "choices" = Return (Arr (choice :: others)) ->
           get choice "message" = Return msg ->
           get msg "content" = Return answer ->
           exists response w',
             Schema.sendMessage input context h w = (Return response, w')
             /\ Schema.message response = answer
             /\ fetches (events w') = (fetches (events w) ++ [request])%list).
Proof.
  intros input context h w Hr service request.
  destruct (resolver_run input context h w)
    as [v [w1 [Hclient [response [Hrun [Hmsg Hmodel]]]]]].
  fold service in Hclient.
  set (options := Some _) in Hclient.
  assert (Hreq : upstreamRequest h service (Schema.input_message input) options = request).
  { unfold upstreamRequest, request. rewrite buildRequestBody_shape.
    unfold options. cbn [opt opt_model systemPrompt].
    rewrite or_string_given, given_or_twice. reflexivity. }
  split; [| split].
  - eexists. eexists. exact Hrun.
  - intros Hk.
    destruct (getMockResponse_placeholder (Schema.input_message input) h
                (record (ConsoleWarn "ChatGPT API key not provided, returning mock response")
                   w) Hr) as [t [Hmock Hin]].
    rewrite (sendMessage_no_credential_run service _ options h w Hk), Hmock in Hclient.
    injection Hclient as Hv Hw.
    exists response. eexists. exists t. split; [exact Hrun |].
    split; [rewrite Hmsg; symmetry; exact Hv |]. split; [exact Hin |].
    rewrite <- Hw. cbn [events record]. rewrite fetches_app. cbn. apply app_nil_r.
  - intros r body data choice msg answer others Hk Hup Hok Hbody Hparse Hc Hm Ha.
    rewrite <- Hreq in Hup. unfold upstreamRequest in Hup.
    assert (Hp : parse_body h (res_text r) = Return data)
      by (rewrite Hbody; exact Hparse).
    rewrite sendMessage_upstream in Hclient by exact Hk.
    rewrite (tryCompletion_first_choice h service _ w r data choice msg others
               Hup Hok Hp Hc Hm), Ha in Hclient.
    injection Hclient as Hv Hw.
    exists response. eexists. split; [exact Hrun |].
    split; [rewrite Hmsg; symmetry; exact Hv |].
    rewrite <- Hw. cbn [events record]. rewrite fetches_app.
    fold (upstreamRequest h service (Schema.input_message input) options).
    rewrite Hreq. reflexivity.
Qed.

(** X17 for a mutation through a service with a key and a live upstream. *)
Lemma mutation_carries_the_reply_witness :
  exists response w',
    Schema.sendMessage MoreExamples.helloInput Examples.mutationContext
      Examples.online Examples.start
    = (Return response, w')
    /\ Schema.message response = Str "Hello there!"
    /\ fetches (events w')
       = (fetches (events Examples.start) ++
          [completionCall Examples.online Examples.service
             {| model := "gpt-3.5-turbo";
                messages := [ {| role := user; content := "Hello" |} ];
                max_tokens := Some (maxTokens Examples.service);
                temperature_ := Some (temperature Examples.service);
                stream := None |}])%list.
Proof.
  exact (proj2 (proj2 (mutation_carries_the_reply MoreExamples.helloInput
                         Examples.mutationContext Examples.online Examples.start
                         (hostWith_random _)))
           {| res_status := 200; res_text := Return Examples.completion_text |}
           Examples.completion_text Examples.completion
           (Obj [("index", Num zero);
                 ("message", Obj [("role", Str "assistant");
                                  ("content", Str "Hello there!")]);
                 ("finish_reason", Str "stop")])
           (Obj [("role", Str "assistant"); ("content", Str "Hello there!")])
           (Str "Hello there!") []
           eq_refl eq_refl eq_refl eq_refl eq_refl eq_refl eq_refl eq_refl).
Defined.

(** ** A gateway deployed without a credential *)

Lemma factory_without_key (env : Env) :
  OPENAI_API_KEY env = None
  \/ (exists k, OPENAI_API_KEY env = Some k /\ trim k = "") ->
  noApiKey (createChatGPTService env) = true.
Proof.
  intros H. apply noApiKey_blank.
  unfold createChatGPTService, constructor. cbn [apiKey].
  destruct H as [-> | [k [-> Hk]]].
  - left. reflexivity.
  - cbn [or_string]. destruct (String.eqb_spec k "") as [-> | Hn]; cbn [negb].
    + left. reflexivity.
    + right. destruct k as [| c k]; [contradiction |]. exact Hk.
Qed.

(** X18.  When the environment has no [OPENAI_API_KEY], or one that trims
    to the empty string, the service that the gateway builds for its
    context answers every [sendMessage] mutation with one of the four
    placeholders for the input message: the mutation sends nothing, its
    only event is the one warning, and it makes two random draws (the
    template and the identifier) and reads the clock twice. *)
Theorem unconfigured_gateway_is_offline :
  forall (env : Env) (input : Schema.MessageInput) (request : Request)
         (h : Host) (w : World),
    random_in_unit h ->
    OPENAI_API_KEY env = None
    \/ (exists k, OPENAI_API_KEY env = Some k /\ trim k = "") ->
    exists response t,
      Schema.sendMessage input
        {| Schema.chatService := createChatGPTService env;
           Schema.env := env;
           Schema.request := request |} h w
      = (Return response,
         mkWorld
           (events w
            ++ [ConsoleWarn "ChatGPT API key not provided, returning mock response"])%list
           (S (S (draws w))) (S (S (ticks w))))
      /\ Schema.message response = Str t
      /\ In t (mockResponses (Schema.input_message input)).
Proof.
  intros env input request h w Hr Hkey.
  set (context := {| Schema.chatService := createChatGPTService env;
                     Schema.env := env; Schema.request := request |}).
  destruct (resolver_run input context h w)
    as [v [w1 [Hclient [response [Hrun [Hmsg _]]]]]].
  cbn [Schema.chatService context] in Hclient.
  rewrite (sendMessage_no_credential_run _ _ _ h w (factory_without_key env Hkey))
    in Hclient.
  destruct (getMockResponse_placeholder (Schema.input_message input) h
              (record (ConsoleWarn "ChatGPT API key not provided, returning mock response")
                 w) Hr) as [t [Hmock Hin]].
  rewrite Hmock in Hclient. injection Hclient as Hv Hw.
  exists response, t. split; [| split; [rewrite Hmsg; symmetry; exact Hv | exact Hin]].
  rewrite Hrun, <- Hw. reflexivity.
Qed.

(** X18 for an environment with no variable at all. *)
Lemma unconfigured_gateway_is_offline_witness :
  exists response t,
    Schema.sendMessage MoreExamples.helloInput
      {| Schema.chatService := createChatGPTService Examples.noEnv;
         Schema.env := Examples.noEnv;
         Schema.request := Examples.postWithoutQuery |} Examples.online Examples.start
    = (Return response,
       mkWorld [ConsoleWarn "ChatGPT API key not provided, returning mock response"] 2 2)
    /\ Schema.message response = Str t
    /\ In t (mockResponses "Hello").
Proof.
  exact (unconfigured_gateway_is_offline Examples.noEnv MoreExamples.helloInput
           Examples.postWithoutQuery Examples.online Examples.start
           (hostWith_random _) (or_introl eq_refl)).
Defined.
